(** * zod.anno.parser: annotation parsers

    A shallow embedding of [src/zod/anno/parser.py] and the properties of
    its four parsers, of the file loader they share and of the dispatch
    registry [ANNOTATION_PARSERS].

    Layout:
    - [Python]    the values [json.load] builds and the few operations of
                  the language the module uses on them (subscript, [in],
                  truth test, iteration), each with the exceptions it raises;
    - [Parser]    the five functions, the calls that leave [classes] to
                  its default and the registry, over the external
                  collaborators the module imports;
    - [Running]   the parsers once more over a store of list objects,
                  with the collaborators as calls that have a state;
    - [Sample], [Edge], [Live], [Odd]  small concrete inputs;
    - the properties, one section per parser, those of the module as it
      runs last. *)

From Stdlib Require Import ZArith String List Bool Lia.
From Stdlib Require Import Floats.SpecFloat.
From stdpp Require Import base option gmap strings list.

Set Warnings "-register-all".

Open Scope string_scope.

(* ===================================================================== *)
(** * Python values and exceptions                                        *)
(* ===================================================================== *)

Module Python.

(** What [json.load] returns: [None], [bool], [int], [float], [str],
    [list] and [dict] with [str] keys.  A dict keeps its entries in
    insertion order; subscripting takes the binding of the key. *)
Inductive pyval : Type :=
| PyNone
| PyBool (b : bool)
| PyInt (n : Z)
| PyFloat (f : spec_float)
| PyStr (s : string)
| PyList (items : list pyval)
| PyDict (entries : list (string * pyval)).

(** The exceptions that can leave the module.  [OSError name] is any
    [OSError] of [open] other than a missing file ([IsADirectoryError],
    [PermissionError], ...). *)
Inductive exn : Type :=
| FileNotFoundError
| JSONDecodeError
| KeyError (key : string)
| TypeError
| ValueError (msg : string)
| OSError (name : string)
| RecursionError
| UnicodeDecodeError.

(** A call either returns or raises. *)
Inductive result (A : Type) : Type :=
| Return (a : A)
| Raise (e : exn).
Arguments Return {A} a.
Arguments Raise {A} e.

#[global] Instance result_bind : MBind result := fun _ _ k r =>
  match r with
  | Return a => k a
  | Raise e => Raise e
  end.

Definition returns {A} (r : result A) : bool :=
  match r with Return _ => true | Raise _ => false end.

(** [d[key]] on the binding list of a dict. *)
Fixpoint dict_get (entries : list (string * pyval)) (key : string) : option pyval :=
  match entries with
  | [] => None
  | (k, v) :: rest => if String.eqb k key then Some v else dict_get rest key
  end.

(** [obj[key]] for a [str] key: a dict raises [KeyError] on a missing
    key; lists and strings only take integer indices, the other values
    are not subscriptable (all [TypeError]). *)
Definition py_getitem (obj : pyval) (key : string) : result pyval :=
  match obj with
  | PyDict entries =>
      match dict_get entries key with
      | Some v => Return v
      | None => Raise (KeyError key)
      end
  | _ => Raise TypeError
  end.

(** [obj[k1][k2]], left to right. *)
Definition py_getitem2 (obj : pyval) (k1 k2 : string) : result pyval :=
  inner ← py_getitem obj k1; py_getitem inner k2.

Definition is_str (key : string) (v : pyval) : bool :=
  match v with PyStr s => String.eqb s key | _ => false end.

(** [key in container] for a [str] key: key membership for a dict,
    element membership by [==] for a list (a [str] equals only an equal
    [str]), substring test for a [str]; [TypeError] for the values that
    are not iterable. *)
Definition py_contains (key : string) (container : pyval) : result bool :=
  match container with
  | PyDict entries => Return (bool_decide (is_Some (dict_get entries key)))
  | PyList items => Return (existsb (is_str key) items)
  | PyStr s => Return (bool_decide (is_Some (String.index 0 key s)))
  | _ => Raise TypeError
  end.

(** [v in classes] where [classes] is a list of class labels, as the two
    default allow-lists are: a [str] equals only an equal [str], so a
    value that is not a [str] is in no allow-list. *)
Definition label_in (v : pyval) (classes : list string) : bool :=
  match v with
  | PyStr s => existsb (String.eqb s) classes
  | _ => false
  end.

(** The truth test of [if v:]. *)
Definition truthy (v : pyval) : bool :=
  match v with
  | PyNone => false
  | PyBool b => b
  | PyInt n => negb (Z.eqb n 0)
  | PyFloat (S754_zero _) => false
  | PyFloat _ => true
  | PyStr s => negb (String.eqb s "")
  | PyList items => negb (Nat.eqb (length items) 0)
  | PyDict entries => negb (Nat.eqb (length entries) 0)
  end.

Fixpoint chars (s : string) : list pyval :=
  match s with
  | EmptyString => []
  | String c rest => PyStr (String c EmptyString) :: chars rest
  end.

(** The items [for x in v] runs over: the elements of a list, the keys
    of a dict, the characters of a string (each a [str] again); the other
    values are not iterable. *)
Definition py_iter (v : pyval) : result (list pyval) :=
  match v with
  | PyList items => Return items
  | PyDict entries => Return (map (fun kv => PyStr (fst kv)) entries)
  | PyStr s => Return (chars s)
  | _ => Raise TypeError
  end.

(** What is at a path, by what [open(path, "r")] and [json.load] do with
    it: text that is no JSON document; text that is one JSON document,
    with the value it decodes to; text on which [json.load] raises
    something else than [JSONDecodeError] ([RecursionError] on deep
    nesting, [ValueError] on an integer too long to convert,
    [UnicodeDecodeError]); something [open] cannot open for reading (a
    directory, a file without read permission). *)
Inductive file_content : Type :=
| NotJson
| Json (document : pyval)
| Unloadable (e : exn)
| Unopenable (name : string).

(** [open(path, "r")]: what can be read behind the path. *)
Definition py_open (files : gmap string file_content) (path : string)
    : result file_content :=
  match files !! path with
  | None => Raise FileNotFoundError
  | Some (Unopenable name) => Raise (OSError name)
  | Some content => Return content
  end.

(** [json.load(file)] *)
Definition json_load (file : file_content) : result pyval :=
  match file with
  | Json document => Return document
  | NotJson => Raise JSONDecodeError
  | Unloadable e => Raise e
  | Unopenable name => Raise (OSError name)
  end.

End Python.
Import Python.

(* ===================================================================== *)
(** * The parsers                                                         *)
(* ===================================================================== *)

(** Modelled from the spec: [zod.constants.AnnotationProject], the
    enumeration of the four annotation projects, is not part of the
    sources at hand. *)
Inductive AnnotationProject : Type :=
| LANE_MARKINGS
| EGO_ROAD
| OBJECT_DETECTION
| TRAFFIC_SIGNS.

#[global] Instance AnnotationProject_eq_dec : EqDecision AnnotationProject.
Proof. solve_decision. Defined.

(** The list objects that serve as allow-lists live in a store; a
    parameter [classes] is bound to a location of it. *)
Definition loc := positive.

(** The collaborators the module imports: [Camera] and [Box2D.from_points],
    [get_class_idx], [ObjectAnnotation.from_dict].  Each call of one either
    returns or raises. *)
Class Collaborators : Type := {
  Camera : Type;
  FRONT : Camera;
  Box2D : Type;
  from_points : pyval -> Camera -> result Box2D;
  get_class_idx : pyval -> result Z;
  ObjectAnnotation : Type;
  from_dict : pyval -> result ObjectAnnotation
}.

Section Parser.

Context `{Collaborators}.

(** Modelled from the spec: [zod.anno.tsr.traffic_sign.TrafficSignAnnotation],
    a plain record of the seven keyword arguments the parser passes. *)
Record TrafficSignAnnotation : Type := mkTrafficSignAnnotation {
  bounding_box : Box2D;
  traffic_sign_class : pyval;
  traffic_sign_idx : Z;
  occlusion_ratio : pyval;
  annotation_uuid : pyval;
  electronic_sign : pyval;
  uuid : pyval
}.

(** [with open(annotation_file, "r") as file: annotation = json.load(file)]
    and [return annotation]; the file is closed on the way out, whether
    [json.load] returns or raises. *)
Definition _read_annotation_file (files : gmap string file_content)
    (annotation_file : string) : result pyval :=
  file ← py_open files annotation_file;
  annotation ← json_load file;
  Return annotation.

(** [[ObjectAnnotation.from_dict(obj) for obj in annotation]] *)
Fixpoint object_detection_comprehension (annotation : list pyval)
    : result (list ObjectAnnotation) :=
  match annotation with
  | [] => Return []
  | obj :: rest =>
      o ← from_dict obj;
      os ← object_detection_comprehension rest;
      Return (o :: os)
  end.

Definition parse_object_detection_annotation (files : gmap string file_content)
    (annotation_path : string) : result (list ObjectAnnotation) :=
  annotation ← _read_annotation_file files annotation_path;
  objs ← py_iter annotation;
  object_detection_comprehension objs.

(** One turn of the traffic-sign loop: [None] is the [continue], [Some]
    the annotation that is appended. *)
Definition traffic_sign_body (annotated_object : pyval)
    : result (option TrafficSignAnnotation) :=
  unclear ← py_getitem2 annotated_object "properties" "unclear";
  if truthy unclear then Return None
  else
    coordinates ← py_getitem2 annotated_object "geometry" "coordinates";
    bounding_box ← from_points coordinates FRONT;
    traffic_sign_class ← py_getitem2 annotated_object "properties" "class";
    class_label ← py_getitem2 annotated_object "properties" "class";
    traffic_sign_idx ← get_class_idx class_label;
    occlusion_ratio ← py_getitem2 annotated_object "properties" "occlusion_ratio";
    annotation_uuid ← py_getitem2 annotated_object "properties" "annotation_uuid";
    electronic_sign ← py_getitem2 annotated_object "properties" "is_electronic";
    uuid ← py_getitem2 annotated_object "properties" "annotation_uuid";
    Return (Some (mkTrafficSignAnnotation bounding_box traffic_sign_class
                    traffic_sign_idx occlusion_ratio annotation_uuid
                    electronic_sign uuid)).

Fixpoint traffic_sign_loop (annotation : list pyval)
    (annotated_objects : list TrafficSignAnnotation)
    : result (list TrafficSignAnnotation) :=
  match annotation with
  | [] => Return annotated_objects
  | annotated_object :: rest =>
      turn ← traffic_sign_body annotated_object;
      match turn with
      | None => traffic_sign_loop rest annotated_objects
      | Some sign => traffic_sign_loop rest (annotated_objects ++ [sign])
      end
  end.

Definition parse_traffic_sign_annotation (files : gmap string file_content)
    (annotation_path : string) : result (list TrafficSignAnnotation) :=
  annotation ← _read_annotation_file files annotation_path;
  objs ← py_iter annotation;
  traffic_sign_loop objs [].

(** The loop of [parse_lane_markings_annotation]; [classes] is the
    content of the list object the parameter is bound to, which the
    loop only reads. *)
Fixpoint lane_markings_loop (classes : list string) (annotations : list pyval)
    (polygons : list pyval) : result (list pyval) :=
  match annotations with
  | [] => Return polygons
  | annotation :: rest =>
      properties ← py_getitem annotation "properties";
      has_class ← py_contains "class" properties;
      if (has_class : bool) then
        annotated_class ← py_getitem2 annotation "properties" "class";
        if label_in annotated_class classes then
          coordinates ← py_getitem2 annotation "geometry" "coordinates";
          lane_markings_loop classes rest (polygons ++ [coordinates])
        else lane_markings_loop classes rest polygons
      else lane_markings_loop classes rest polygons
  end.

Definition parse_lane_markings_annotation (files : gmap string file_content)
    (annotation_path : string) (classes : list string) : result (list pyval) :=
  annotations ← _read_annotation_file files annotation_path;
  records ← py_iter annotations;
  lane_markings_loop classes records [].

(** The loop of [parse_ego_road_annotation]. *)
Fixpoint ego_road_loop (classes : list string) (annotations : list pyval)
    (polygons : list pyval) : result (list pyval) :=
  match annotations with
  | [] => Return polygons
  | annotation :: rest =>
      properties ← py_getitem annotation "properties";
      has_class ← py_contains "class" properties;
      if (has_class : bool) then
        annotated_class ← py_getitem2 annotation "properties" "class";
        if label_in annotated_class classes then
          coordinates ← py_getitem2 annotation "geometry" "coordinates";
          ego_road_loop classes rest (polygons ++ [coordinates])
        else ego_road_loop classes rest polygons
      else ego_road_loop classes rest polygons
  end.

Definition parse_ego_road_annotation (files : gmap string file_content)
    (annotation_path : string) (classes : list string) : result (list pyval) :=
  annotations ← _read_annotation_file files annotation_path;
  records ← py_iter annotations;
  ego_road_loop classes records [].

(** ** Function objects and default arguments *)

(** The two list objects the [def] statements build, once, for the
    default value of [classes]. *)
Definition lane_markings_defaults : loc := 1%positive.
Definition ego_road_defaults : loc := 2%positive.

(** The store once the module is loaded. *)
Definition module_store : gmap loc (list string) :=
  <[lane_markings_defaults := ["lm_dashed"; "lm_solid"]]>
    (<[ego_road_defaults := ["EgoRoad_Road"]]> ∅).

(** A function object: its code and, where [classes] has a default, the
    location of the default object. *)
Inductive function : Type :=
| PathFunction (A : Type)
    (code : gmap string file_content -> string -> result (list A))
| PathClassesFunction
    (code : gmap string file_content -> string -> list string -> result (list pyval))
    (defaults : loc).

(** The object [classes] is bound to in a call: the one the caller
    passes, or the default object itself when the argument is left out. *)
Definition bind_classes (defaults : loc) (arg : option loc) : loc :=
  match arg with
  | Some l => l
  | None => defaults
  end.

(** A call [f(path)] or [f(path, classes)] of a function with a
    [classes] parameter, seen from the values: the code is given what the
    object bound to [classes] holds.  [None] when [classes] would be
    bound to no object.  How a call runs on the store, object by object,
    is [run_call_lane_markings] and [run_call_ego_road] below. *)
Definition call_with_classes
    (code : gmap string file_content -> string -> list string -> result (list pyval))
    (defaults : loc) (σ : gmap loc (list string))
    (files : gmap string file_content) (path : string) (arg : option loc)
    : option (result (list pyval) * gmap loc (list string)) :=
  match σ !! bind_classes defaults arg with
  | Some classes => Some (code files path classes, σ)
  | None => None
  end.

Definition call_parse_lane_markings_annotation :=
  call_with_classes parse_lane_markings_annotation lane_markings_defaults.
Definition call_parse_ego_road_annotation :=
  call_with_classes parse_ego_road_annotation ego_road_defaults.

(** [ANNOTATION_PARSERS], a dict literal: its items in order. *)
Definition ANNOTATION_PARSERS : list (AnnotationProject * function) :=
  [ (LANE_MARKINGS, PathClassesFunction parse_lane_markings_annotation lane_markings_defaults);
    (EGO_ROAD, PathClassesFunction parse_ego_road_annotation ego_road_defaults);
    (OBJECT_DETECTION, PathFunction ObjectAnnotation parse_object_detection_annotation);
    (TRAFFIC_SIGNS, PathFunction TrafficSignAnnotation parse_traffic_sign_annotation) ].

(** [registry[project]] *)
Fixpoint registry_get (registry : list (AnnotationProject * function))
    (project : AnnotationProject) : option function :=
  match registry with
  | [] => None
  | (k, f) :: rest => if decide (k = project) then Some f else registry_get rest project
  end.

(** How many items of the registry have the key [project]. *)
Definition registry_count (registry : list (AnnotationProject * function))
    (project : AnnotationProject) : nat :=
  length (filter (fun kf => kf.1 = project) registry).

End Parser.

(* ===================================================================== *)
(** * The module as it runs                                               *)
(* ===================================================================== *)

(** The lists the parsers build and the allow-lists they are given are
    objects: two names can be bound to one of them, and [append] changes
    it under every name.  Here are the parsers once more, statement by
    statement, over a store of list objects and over the collaborators as
    they are called, each call being free to change a state of the
    collaborators' own.  The values [json.load] builds are new at every
    call of the loader and are kept as values. *)

Section Running.

Context `{Collaborators}.

(** A list object, by what it holds: class labels, decoded JSON values,
    traffic-sign annotations or object annotations. *)
Inductive pylist : Type :=
| Labels (labels : list string)
| Values (items : list pyval)
| Signs (signs : list TrafficSignAnnotation)
| Objects (objects : list ObjectAnnotation).

(** The collaborators as they are called: a call answers and may change
    what is outside of this module. *)
Class CollaboratorCalls : Type := {
  Outside : Type;
  call_from_points : pyval -> Camera -> Outside -> result Box2D * Outside;
  call_get_class_idx : pyval -> Outside -> result Z * Outside;
  call_from_dict : pyval -> Outside -> result ObjectAnnotation * Outside
}.

Context `{CollaboratorCalls}.

(** What is assumed of the collaborators where it is needed: whatever
    the calls change, their answers are those of the functions of
    [Collaborators]. *)
Definition answers_fixed : Prop :=
  (∀ points camera w, (call_from_points points camera w).1 = from_points points camera)
  ∧ (∀ label w, (call_get_class_idx label w).1 = get_class_idx label)
  ∧ (∀ obj w, (call_from_dict obj w).1 = from_dict obj).

Record machine : Type := mkMachine {
  store : gmap loc pylist;
  outside : Outside
}.

(** A piece of the program: from a state it returns or raises, in a new
    state; [None] when it leaves the model (a name bound to no list
    object of the kind the operation is modelled for). *)
Definition run (A : Type) : Type := machine -> option (result A * machine).

#[local] Instance run_ret : MRet run := fun _ a m => Some (Return a, m).
#[local] Instance run_bind : MBind run := fun _ _ k c m =>
  match c m with
  | Some (Return a, m') => k a m'
  | Some (Raise e, m') => Some (Raise e, m')
  | None => None
  end.

(** An expression that touches neither the store nor the outside. *)
Definition lift {A} (r : result A) : run A := fun m => Some (r, m).

(** A call of a collaborator. *)
Definition call {A} (f : Outside -> result A * Outside) : run A := fun m =>
  let (r, w) := f (outside m) in Some (r, mkMachine (store m) w).

(** [[]], or a list display: a new list object, at a location not in use. *)
Definition new_list (obj : pylist) : run loc := fun m =>
  let l := fresh (dom (store m)) in
  Some (Return l, mkMachine (<[l := obj]> (store m)) (outside m)).

(** [polygons.append(coordinates)] *)
Definition append_value (l : loc) (v : pyval) : run unit := fun m =>
  match store m !! l with
  | Some (Values items) =>
      Some (Return tt, mkMachine (<[l := Values (items ++ [v])]> (store m)) (outside m))
  | _ => None
  end.

(** [annotated_objects.append(sign)] *)
Definition append_sign (l : loc) (sign : TrafficSignAnnotation) : run unit := fun m =>
  match store m !! l with
  | Some (Signs signs) =>
      Some (Return tt, mkMachine (<[l := Signs (signs ++ [sign])]> (store m)) (outside m))
  | _ => None
  end.

(** The comprehension adding an element to the list it builds. *)
Definition append_object (l : loc) (o : ObjectAnnotation) : run unit := fun m =>
  match store m !! l with
  | Some (Objects objects) =>
      Some (Return tt, mkMachine (<[l := Objects (objects ++ [o])]> (store m)) (outside m))
  | _ => None
  end.

(** [annotated_class in classes], for [classes] bound to a list of labels. *)
Definition contains_label (classes : loc) (v : pyval) : run bool := fun m =>
  match store m !! classes with
  | Some (Labels labels) => Some (Return (label_in v labels), m)
  | _ => None
  end.

(** The comprehension of [parse_object_detection_annotation], filling
    the list it builds. *)
Fixpoint run_object_detection_comprehension (annotation : list pyval) (built : loc)
    : run unit :=
  match annotation with
  | [] => mret tt
  | obj :: rest =>
      o ← call (call_from_dict obj);
      _ ← append_object built o;
      run_object_detection_comprehension rest built
  end.

(** The iterable of a comprehension is evaluated before its list is made. *)
Definition run_parse_object_detection_annotation (files : gmap string file_content)
    (annotation_path : string) : run loc :=
  annotation ← lift (_read_annotation_file files annotation_path);
  objs ← lift (py_iter annotation);
  built ← new_list (Objects []);
  _ ← run_object_detection_comprehension objs built;
  mret built.

Definition run_traffic_sign_body (annotated_object : pyval) (annotated_objects : loc)
    : run unit :=
  unclear ← lift (py_getitem2 annotated_object "properties" "unclear");
  if truthy unclear then mret tt
  else
    coordinates ← lift (py_getitem2 annotated_object "geometry" "coordinates");
    bounding_box ← call (call_from_points coordinates FRONT);
    traffic_sign_class ← lift (py_getitem2 annotated_object "properties" "class");
    class_label ← lift (py_getitem2 annotated_object "properties" "class");
    traffic_sign_idx ← call (call_get_class_idx class_label);
    occlusion_ratio ← lift (py_getitem2 annotated_object "properties" "occlusion_ratio");
    annotation_uuid ← lift (py_getitem2 annotated_object "properties" "annotation_uuid");
    electronic_sign ← lift (py_getitem2 annotated_object "properties" "is_electronic");
    uuid ← lift (py_getitem2 annotated_object "properties" "annotation_uuid");
    append_sign annotated_objects
      (mkTrafficSignAnnotation bounding_box traffic_sign_class traffic_sign_idx
         occlusion_ratio annotation_uuid electronic_sign uuid).

Fixpoint run_traffic_sign_loop (annotation : list pyval) (annotated_objects : loc)
    : run unit :=
  match annotation with
  | [] => mret tt
  | annotated_object :: rest =>
      _ ← run_traffic_sign_body annotated_object annotated_objects;
      run_traffic_sign_loop rest annotated_objects
  end.

Definition run_parse_traffic_sign_annotation (files : gmap string file_content)
    (annotation_path : string) : run loc :=
  annotation ← lift (_read_annotation_file files annotation_path);
  annotated_objects ← new_list (Signs []);
  objs ← lift (py_iter annotation);
  _ ← run_traffic_sign_loop objs annotated_objects;
  mret annotated_objects.

Fixpoint run_lane_markings_loop (classes : loc) (annotations : list pyval) (polygons : loc)
    : run unit :=
  match annotations with
  | [] => mret tt
  | annotation :: rest =>
      properties ← lift (py_getitem annotation "properties");
      has_class ← lift (py_contains "class" properties);
      if (has_class : bool) then
        annotated_class ← lift (py_getitem2 annotation "properties" "class");
        allowed ← contains_label classes annotated_class;
        if (allowed : bool) then
          coordinates ← lift (py_getitem2 annotation "geometry" "coordinates");
          _ ← append_value polygons coordinates;
          run_lane_markings_loop classes rest polygons
        else run_lane_markings_loop classes rest polygons
      else run_lane_markings_loop classes rest polygons
  end.

Definition run_parse_lane_markings_annotation (files : gmap string file_content)
    (annotation_path : string) (classes : loc) : run loc :=
  annotations ← lift (_read_annotation_file files annotation_path);
  polygons ← new_list (Values []);
  records ← lift (py_iter annotations);
  _ ← run_lane_markings_loop classes records polygons;
  mret polygons.

Fixpoint run_ego_road_loop (classes : loc) (annotations : list pyval) (polygons : loc)
    : run unit :=
  match annotations with
  | [] => mret tt
  | annotation :: rest =>
      properties ← lift (py_getitem annotation "properties");
      has_class ← lift (py_contains "class" properties);
      if (has_class : bool) then
        annotated_class ← lift (py_getitem2 annotation "properties" "class");
        allowed ← contains_label classes annotated_class;
        if (allowed : bool) then
          coordinates ← lift (py_getitem2 annotation "geometry" "coordinates");
          _ ← append_value polygons coordinates;
          run_ego_road_loop classes rest polygons
        else run_ego_road_loop classes rest polygons
      else run_ego_road_loop classes rest polygons
  end.

Definition run_parse_ego_road_annotation (files : gmap string file_content)
    (annotation_path : string) (classes : loc) : run loc :=
  annotations ← lift (_read_annotation_file files annotation_path);
  polygons ← new_list (Values []);
  records ← lift (py_iter annotations);
  _ ← run_ego_road_loop classes records polygons;
  mret polygons.

(** The default objects of the two functions that have one. *)
Record parsers : Type := mkParsers {
  lane_markings_default : loc;
  ego_road_default : loc
}.

(** Executing the two [def] statements: each default value is evaluated
    there, once, and kept with the function. *)
Definition define_parsers : run parsers :=
  lane ← new_list (Labels ["lm_dashed"; "lm_solid"]);
  ego ← new_list (Labels ["EgoRoad_Road"]);
  mret (mkParsers lane ego).

(** A call of either function, with [classes] passed or left out. *)
Definition run_call_lane_markings (defined : parsers) (files : gmap string file_content)
    (path : string) (arg : option loc) : run loc :=
  run_parse_lane_markings_annotation files path
    (bind_classes (lane_markings_default defined) arg).

Definition run_call_ego_road (defined : parsers) (files : gmap string file_content)
    (path : string) (arg : option loc) : run loc :=
  run_parse_ego_road_annotation files path
    (bind_classes (ego_road_default defined) arg).


(** ** What is said of a run *)

(** The outcome [r] of a run that left the store [σ] is [expected]: the
    same exception, or a list object that holds the expected items. *)
Definition yields {A} (wrap : list A -> pylist) (σ : gmap loc pylist)
    (r : result loc) (expected : result (list A)) : Prop :=
  match expected, r with
  | Return items, Return l => σ !! l = Some (wrap items)
  | Raise e, Raise e' => e' = e
  | _, _ => False
  end.

(** Two outcomes are structurally identical in [σ]: the same exception,
    or two list objects, not one, that hold the same items. *)
Definition same_outcome (σ : gmap loc pylist) (r1 r2 : result loc) : Prop :=
  match r1, r2 with
  | Return l1, Return l2 => l1 ≠ l2 ∧ is_Some (σ !! l1) ∧ σ !! l1 = σ !! l2
  | Raise e1, Raise e2 => e1 = e2
  | _, _ => False
  end.

(** Every object there was before is there after, unchanged. *)
Definition keeps (m m' : machine) : Prop :=
  ∀ l, is_Some (store m !! l) -> store m' !! l = store m !! l.

End Running.

#[global] Existing Instances run_ret run_bind.

(* ===================================================================== *)
(** * What the claims speak of                                            *)
(* ===================================================================== *)

(** [annotated_object["properties"]["unclear"]] *)
Definition unclear_of (annotated_object : pyval) : result pyval :=
  py_getitem2 annotated_object "properties" "unclear".

(** The record is one the traffic-sign loop passes over. *)
Definition is_unclear (annotated_object : pyval) : bool :=
  match unclear_of annotated_object with
  | Return unclear => truthy unclear
  | Raise _ => false
  end.

(** The record has a [properties] mapping that binds [key] to [v]. *)
Definition has_property (record : pyval) (key : string) (v : pyval) : Prop :=
  ∃ entries, py_getitem record "properties" = Return (PyDict entries)
             ∧ dict_get entries key = Some v.

(** The record has a [properties] mapping with no field [key]. *)
Definition lacks_property (record : pyval) (key : string) : Prop :=
  ∃ entries, py_getitem record "properties" = Return (PyDict entries)
             ∧ dict_get entries key = None.

(** [selected classes records polygons]: [polygons] is what the records
    contribute, in their order, when a record without a class is passed
    over, a record whose class label is in [classes] gives its
    [geometry.coordinates], and every other record is passed over. *)
Inductive selected (classes : list string) : list pyval -> list pyval -> Prop :=
| selected_done :
    selected classes [] []
| selected_no_class record rest polygons :
    lacks_property record "class" ->
    selected classes rest polygons ->
    selected classes (record :: rest) polygons
| selected_member record rest polygons label coordinates :
    has_property record "class" (PyStr label) ->
    In label classes ->
    py_getitem2 record "geometry" "coordinates" = Return coordinates ->
    selected classes rest polygons ->
    selected classes (record :: rest) (coordinates :: polygons)
| selected_other record rest polygons class :
    has_property record "class" class ->
    (∀ label, class = PyStr label -> ¬ In label classes) ->
    selected classes rest polygons ->
    selected classes (record :: rest) polygons.

(** [from_allowed_record classes records polygon]: the polygon is the
    [geometry.coordinates] of one of the records, whose class label is in
    [classes]. *)
Definition from_allowed_record (classes : list string) (records : list pyval)
    (polygon : pyval) : Prop :=
  ∃ record label,
    In record records
    ∧ py_getitem2 record "properties" "class" = Return (PyStr label)
    ∧ In label classes
    ∧ py_getitem2 record "geometry" "coordinates" = Return polygon.

(* ===================================================================== *)
(** * Small annotation files                                              *)
(* ===================================================================== *)

Module Sample.

Inductive camera : Type := Front.

(** Stand-ins for the collaborators: the box keeps the points it is made
    of, the class table knows two labels, and an object annotation keeps
    the dict it is made of. *)
Definition collaborators : Collaborators := {|
  Camera := camera;
  FRONT := Front;
  Box2D := pyval;
  from_points := fun points _ => Return points;
  get_class_idx := fun label =>
    if is_str "stop" label then Return 0%Z
    else if is_str "yield" label then Return 1%Z
    else Raise (ValueError "unknown class");
  ObjectAnnotation := pyval;
  from_dict := fun obj =>
    match obj with
    | PyDict _ => Return obj
    | _ => Raise TypeError
    end
|}.

Definition point00 : pyval := PyList [PyList [PyInt 0; PyInt 0]].

(** 0.1 as a binary64. *)
Definition tenth : pyval := PyFloat (S754_finite false 7205759403792794 (-56)).

Definition sign (unclear : pyval) (uuid : string) : pyval :=
  PyDict [ ("properties",
            PyDict [ ("unclear", unclear); ("class", PyStr "stop");
                     ("occlusion_ratio", tenth); ("annotation_uuid", PyStr uuid);
                     ("is_electronic", PyBool false) ]);
           ("geometry", PyDict [ ("coordinates", point00) ]) ].

(** A record that holds nothing but the mark. *)
Definition bare_unclear : pyval :=
  PyDict [ ("properties", PyDict [ ("unclear", PyBool true) ]) ].

Definition lane (class : string) (coordinates : pyval) : pyval :=
  PyDict [ ("properties", PyDict [ ("class", PyStr class) ]);
           ("geometry", PyDict [ ("coordinates", coordinates) ]) ].

Definition dashed_polygon : pyval := PyList [PyList [PyInt 1; PyInt 2]; PyList [PyInt 3; PyInt 4]].
Definition other_polygon : pyval := PyList [PyList [PyInt 5; PyInt 6]].

(** A record with properties and no class, and no geometry either. *)
Definition classless : pyval := PyDict [ ("properties", PyDict [ ("note", PyStr "n") ]) ].

Definition lane_records : list pyval :=
  [ lane "lm_dashed" dashed_polygon; classless; lane "other" other_polygon ].

Definition files : gmap string file_content :=
  <["signs.json" := Json (PyList [ sign (PyBool true) "a1"; sign (PyBool false) "a2" ])]>
  (<["marked_as_text.json" := Json (PyList [ sign (PyStr "false") "a3" ])]>
  (<["bare.json" := Json (PyList [ bare_unclear ])]>
  (<["lanes.json" := Json (PyList lane_records)]>
  (<["objects.json" := Json (PyList [ lane "a" point00; classless ])]>
  (<["empty.json" := Json (PyList [])]>
  (<["mapping.json" := Json (PyDict [])]>
  (<["broken.json" := NotJson]> ∅))))))).

(** The same paths, with other files beside them. *)
Definition files_later : gmap string file_content :=
  <["new.json" := Json PyNone]> (<["broken.json" := Json (PyList [])]> files).

End Sample.

(** [lane_record_ok classes record]: the record has a [properties]
    mapping and, when that binds [class] to a label of [classes], a
    [geometry.coordinates] as well. *)
Definition lane_record_ok (classes : list string) (record : pyval) : Prop :=
  ∃ entries,
    py_getitem record "properties" = Return (PyDict entries)
    ∧ ∀ class, dict_get entries "class" = Some class ->
               label_in class classes = true ->
               returns (py_getitem2 record "geometry" "coordinates") = true.

(** [None], a [bool], an [int] or a [float]: the values that can neither
    be iterated over nor searched with [in]. *)
Definition is_scalar (v : pyval) : bool :=
  match v with
  | PyNone | PyBool _ | PyInt _ | PyFloat _ => true
  | PyStr _ | PyList _ | PyDict _ => false
  end.

(** More annotation files, for the edges. *)
Module Edge.

(** A lane marking with a class and no geometry. *)
Definition no_geometry (class : string) : pyval :=
  PyDict [ ("properties", PyDict [ ("class", PyStr class) ]) ].

(** A record that is no mapping at all. *)
Definition no_properties : pyval := PyDict [ ("geometry", PyDict []) ].

(** A record whose [properties] is a text, and one whose [properties]
    is an array. *)
Definition text_properties (text : string) : pyval := PyDict [ ("properties", PyStr text) ].
Definition array_properties (items : list pyval) : pyval :=
  PyDict [ ("properties", PyList items) ].

(** A clear traffic sign of a given class. *)
Definition sign_of_class (class : string) : pyval :=
  PyDict [ ("properties",
            PyDict [ ("unclear", PyBool false); ("class", PyStr class);
                     ("occlusion_ratio", Sample.tenth); ("annotation_uuid", PyStr "b1");
                     ("is_electronic", PyBool true) ]);
           ("geometry", PyDict [ ("coordinates", Sample.point00) ]) ].

(** A clear traffic sign without geometry and without class. *)
Definition clear_and_bare : pyval :=
  PyDict [ ("properties", PyDict [ ("unclear", PyInt 0) ]) ].

Definition first_half : list pyval :=
  [ Sample.lane "lm_solid" Sample.other_polygon; Sample.lane "other" Sample.point00 ].
Definition second_half : list pyval :=
  [ Sample.classless; Sample.lane "lm_dashed" Sample.dashed_polygon ].

Definition files : gmap string file_content :=
  <["no_geometry.json" := Json (PyList [ Sample.lane "lm_dashed" Sample.dashed_polygon;
                                        no_geometry "lm_solid";
                                        Sample.lane "lm_solid" Sample.other_polygon ])]>
  (<["unknown_class.json" := Json (PyList [ sign_of_class "yield"; sign_of_class "mystery";
                                           Sample.bare_unclear ])]>
  (<["null.json" := Json PyNone]>
  (<["object.json" := Json (PyDict [ ("type", PyStr "FeatureCollection") ])]>
  (<["empty_object.json" := Json (PyDict [])]>
  (<["first.json" := Json (PyList first_half)]>
  (<["second.json" := Json (PyList second_half)]>
  (<["both.json" := Json (PyList (first_half ++ second_half))]> ∅))))))).

End Edge.

(** Collaborators that count how often they are called, and a state to
    start from: nothing in the store, no call made. *)
Module Live.

Definition calls : CollaboratorCalls (H := Sample.collaborators) := {|
  Outside := nat;
  call_from_points := fun points camera n =>
    (from_points (Collaborators := Sample.collaborators) points camera, S n);
  call_get_class_idx := fun label n =>
    (get_class_idx (Collaborators := Sample.collaborators) label, S n);
  call_from_dict := fun obj n =>
    (from_dict (Collaborators := Sample.collaborators) obj, S n)
|}.

Definition start : machine (H0 := calls) := mkMachine (H0 := calls) ∅ 0.

Definition defined : parsers := mkParsers 1%positive 2%positive.

End Live.

(** Paths with something else than readable JSON text behind them. *)
Module Odd.

Definition files : gmap string file_content :=
  <["annotations" := Unopenable "IsADirectoryError"]>
  (<["locked.json" := Unopenable "PermissionError"]>
  (<["deep.json" := Unloadable RecursionError]>
  (<["latin1.json" := Unloadable UnicodeDecodeError]>
  (<["text.json" := Json (PyStr "lm_dashed")]> ∅)))).

End Odd.

(* ===================================================================== *)
(** * Properties                                                          *)
(* ===================================================================== *)

(** ** Returning and raising *)

Lemma bind_Return {A B} (a : A) (k : A -> result B) : Return a ≫= k = k a.
Proof. reflexivity. Qed.

Lemma bind_Raise {A B} (e : exn) (k : A -> result B) : Raise e ≫= k = Raise e.
Proof. reflexivity. Qed.

Lemma bind_returns_inv {A B} (r : result A) (k : A -> result B) (b : B) :
  r ≫= k = Return b -> ∃ a, r = Return a ∧ k a = Return b.
Proof.
  destruct r as [a|e]; [rewrite bind_Return | rewrite bind_Raise].
  - intros Hk. exists a. split; [reflexivity | exact Hk].
  - discriminate.
Qed.

(** Splits the hypothesis [x ← r; k = Return b] into its two halves. *)
Ltac bind_inv Hyp x Hx :=
  apply bind_returns_inv in Hyp; destruct Hyp as (x & Hx & Hyp).

Lemma py_getitem2_returns_inv (obj : pyval) (k1 k2 : string) (v : pyval) :
  py_getitem2 obj k1 k2 = Return v ->
  ∃ inner, py_getitem obj k1 = Return inner ∧ py_getitem inner k2 = Return v.
Proof. unfold py_getitem2. apply bind_returns_inv. Qed.

Lemma py_getitem2_dict (obj : pyval) (k1 k2 : string) (entries : list (string * pyval)) :
  py_getitem obj k1 = Return (PyDict entries) ->
  py_getitem2 obj k1 k2 =
    match dict_get entries k2 with
    | Some v => Return v
    | None => Raise (KeyError k2)
    end.
Proof. intros Hobj. unfold py_getitem2. rewrite Hobj. reflexivity. Qed.

Lemma label_in_spec (label : string) (classes : list string) :
  label_in (PyStr label) classes = true <-> In label classes.
Proof.
  simpl. rewrite existsb_exists. split.
  - intros (c & Hc & Heq). apply String.eqb_eq in Heq. now subst.
  - intros Hin. exists label. split; [exact Hin | apply String.eqb_refl].
Qed.

(** ** The file loader *)

Section Loader.

Variable files : gmap string file_content.
Variable path : string.





Lemma read_document (annotation : pyval) :
  _read_annotation_file files path = Return annotation <-> files !! path = Some (Json annotation).
Proof.
  unfold _read_annotation_file, py_open.
  destruct (files !! path) as [[|v|e|name]|]; simpl; split; congruence.
Qed.


End Loader.



(** What is raised at [open] and what is raised at [json.load] comes out
    of the loader as it is, and so does a top-level text. *)
Example read_annotation_file_other_outcomes :
  _read_annotation_file Odd.files "annotations" = Raise (OSError "IsADirectoryError")
  ∧ _read_annotation_file Odd.files "locked.json" = Raise (OSError "PermissionError")
  ∧ _read_annotation_file Odd.files "deep.json" = Raise RecursionError
  ∧ _read_annotation_file Odd.files "latin1.json" = Raise UnicodeDecodeError
  ∧ _read_annotation_file Odd.files "text.json" = Return (PyStr "lm_dashed")
  ∧ _read_annotation_file Odd.files "nothing.json" = Raise FileNotFoundError.
Proof. repeat split; reflexivity. Qed.

(** ** Object detection *)

Section ObjectDetection.

Context `{Collaborators}.

Lemma comprehension_returns_inv (records : list pyval) (out : list ObjectAnnotation) :
  object_detection_comprehension records = Return out ->
  Forall2 (fun record o => from_dict record = Return o) records out.
Proof.
  revert out. induction records as [|record rest IH]; intros out Hout; simpl in Hout.
  - inversion Hout. constructor.
  - bind_inv Hout o Ho. bind_inv Hout os Hos. inversion Hout; subst.
    constructor; [exact Ho | apply IH, Hos].
Qed.

Lemma comprehension_returns (records : list pyval) :
  Forall (fun record => returns (from_dict record) = true) records ->
  ∃ out, object_detection_comprehension records = Return out.
Proof.
  induction 1 as [|record rest Hrecord _ IH]; simpl.
  - eexists. reflexivity.
  - destruct (from_dict record) as [o|e]; [|discriminate].
    destruct IH as (os & ->). eexists. reflexivity.
Qed.

Lemma comprehension_raises (before after : list pyval) (record : pyval) (e : exn) :
  Forall (fun r => returns (from_dict r) = true) before ->
  from_dict record = Raise e ->
  object_detection_comprehension (before ++ record :: after) = Raise e.
Proof.
  induction 1 as [|r rest Hr _ IH]; intros Hrecord; simpl.
  - rewrite Hrecord. reflexivity.
  - destruct (from_dict r) as [o|e']; [|discriminate].
    rewrite (IH Hrecord). reflexivity.
Qed.

Lemma comprehension_returns_iff (records : list pyval) (out : list ObjectAnnotation) :
  object_detection_comprehension records = Return out
  <-> Forall2 (fun record o => from_dict record = Return o) records out.
Proof.
  split; [apply comprehension_returns_inv|].
  induction 1 as [|record o rest os Ho _ IH]; simpl.
  - reflexivity.
  - rewrite Ho, bind_Return, IH. reflexivity.
Qed.

(** C2.  When the file at the path holds a JSON array,
    [parse_object_detection_annotation] applies [ObjectAnnotation.from_dict]
    to every record of it, in order and without any filter: it returns
    [out] exactly when [out] has one element per record, the n-th being
    what [from_dict] returns for the n-th record, so that the result is as
    long as the array; it does return when the constructor accepts every
    record; and the first record the constructor rejects makes the whole
    call raise. *)
Theorem object_detection_one_per_record
    (files : gmap string file_content) (path : string) (records : list pyval) :
  files !! path = Some (Json (PyList records)) ->
  (∀ out, parse_object_detection_annotation files path = Return out
          <-> Forall2 (fun record o => from_dict record = Return o) records out)
  ∧ (∀ out, parse_object_detection_annotation files path = Return out ->
            length out = length records)
  ∧ (Forall (fun record => returns (from_dict record) = true) records ->
     ∃ out, parse_object_detection_annotation files path = Return out)
  ∧ (∀ before record after e,
       records = (before ++ record :: after)%list ->
       Forall (fun r => returns (from_dict r) = true) before ->
       from_dict record = Raise e ->
       parse_object_detection_annotation files path = Raise e).
Proof.
  intros Hfile. apply read_document in Hfile.
  unfold parse_object_detection_annotation. rewrite Hfile. simpl.
  split; [intros out; apply comprehension_returns_iff|]. split.
  - intros out Hout. apply comprehension_returns_inv in Hout.
    symmetry. eapply Forall2_length, Hout.
  - split; [apply comprehension_returns|].
    intros before record after e ->. apply comprehension_raises.
Qed.

End ObjectDetection.

Lemma object_detection_one_per_record_witness :
  parse_object_detection_annotation (H := Sample.collaborators) Sample.files "objects.json"
  = Return [Sample.lane "a" Sample.point00; Sample.classless].
Proof.
  apply (object_detection_one_per_record (H := Sample.collaborators)
           Sample.files "objects.json" [Sample.lane "a" Sample.point00; Sample.classless]).
  - reflexivity.
  - repeat constructor.
Defined.

(** ** Traffic signs *)

Section TrafficSigns.

Context `{Collaborators}.

Lemma traffic_sign_body_skip (record unclear : pyval) :
  unclear_of record = Return unclear ->
  truthy unclear = true ->
  traffic_sign_body record = Return None.
Proof.
  unfold unclear_of, traffic_sign_body. intros -> Htruthy.
  rewrite bind_Return, Htruthy. reflexivity.
Qed.

(** What a record that yields an annotation must hold, and where each
    field of the annotation comes from. *)
Lemma traffic_sign_body_keep_inv (record : pyval) (sign : TrafficSignAnnotation) :
  traffic_sign_body record = Return (Some sign) ->
  ∃ unclear coordinates,
    unclear_of record = Return unclear
    ∧ truthy unclear = false
    ∧ py_getitem2 record "geometry" "coordinates" = Return coordinates
    ∧ from_points coordinates FRONT = Return (bounding_box sign)
    ∧ py_getitem2 record "properties" "class" = Return (traffic_sign_class sign)
    ∧ get_class_idx (traffic_sign_class sign) = Return (traffic_sign_idx sign)
    ∧ py_getitem2 record "properties" "occlusion_ratio" = Return (occlusion_ratio sign)
    ∧ py_getitem2 record "properties" "annotation_uuid" = Return (annotation_uuid sign)
    ∧ py_getitem2 record "properties" "is_electronic" = Return (electronic_sign sign)
    ∧ uuid sign = annotation_uuid sign.
Proof.
  unfold traffic_sign_body, unclear_of. intros Hbody.
  bind_inv Hbody unclear Hunclear.
  destruct (truthy unclear) eqn:Htruthy; [discriminate|].
  bind_inv Hbody coordinates Hcoordinates.
  bind_inv Hbody box Hbox.
  bind_inv Hbody class Hclass.
  bind_inv Hbody label Hlabel.
  bind_inv Hbody idx Hidx.
  bind_inv Hbody occlusion Hocclusion.
  bind_inv Hbody ident Hident.
  bind_inv Hbody electronic Helectronic.
  bind_inv Hbody ident' Hident'.
  inversion Hbody; subst sign; clear Hbody. simpl.
  assert (label = class) as -> by congruence.
  assert (ident' = ident) as -> by congruence.
  exists unclear, coordinates. repeat split; assumption.
Qed.

Lemma traffic_sign_body_skip_inv (record unclear : pyval) :
  unclear_of record = Return unclear ->
  traffic_sign_body record = Return None ->
  truthy unclear = true.
Proof.
  unfold unclear_of, traffic_sign_body. intros -> Hbody.
  rewrite bind_Return in Hbody.
  destruct (truthy unclear); [reflexivity|].
  do 9 (let x := fresh "x" in let Hx := fresh "Hx" in bind_inv Hbody x Hx).
  discriminate.
Qed.

Lemma traffic_sign_body_skip_iff (record unclear : pyval) :
  unclear_of record = Return unclear ->
  (traffic_sign_body record = Return None <-> truthy unclear = true).
Proof.
  intros Hunclear. split.
  - apply traffic_sign_body_skip_inv, Hunclear.
  - apply traffic_sign_body_skip, Hunclear.
Qed.

Lemma traffic_sign_body_returns_unclear (record : pyval) (turn : option TrafficSignAnnotation) :
  traffic_sign_body record = Return turn ->
  ∃ unclear, unclear_of record = Return unclear.
Proof.
  unfold traffic_sign_body, unclear_of. intros Hbody.
  bind_inv Hbody unclear Hunclear. exists unclear. exact Hunclear.
Qed.

(** The loop appends, to what it starts with, one annotation per record
    that is not passed over, in the records' order. *)
Lemma traffic_sign_loop_returns_inv (records : list pyval)
    (acc out : list TrafficSignAnnotation) :
  traffic_sign_loop records acc = Return out ->
  ∃ signs,
    out = (acc ++ signs)%list
    ∧ Forall (fun record => ∃ turn, traffic_sign_body record = Return turn) records
    ∧ Forall2 (fun record sign => traffic_sign_body record = Return (Some sign))
        (List.filter (fun record => negb (is_unclear record)) records) signs.
Proof.
  revert acc out. induction records as [|record rest IH]; intros acc out Hloop; simpl in Hloop.
  - inversion Hloop; subst. exists []. rewrite app_nil_r. repeat constructor.
  - bind_inv Hloop turn Hturn.
    destruct (traffic_sign_body_returns_unclear _ _ Hturn) as (unclear & Hunclear).
    destruct turn as [sign|].
    + destruct (IH _ _ Hloop) as (signs & -> & Hall & Hkept).
      exists (sign :: signs). rewrite <- app_assoc. split; [reflexivity|].
      split; [constructor; eauto|].
      destruct (traffic_sign_body_keep_inv _ _ Hturn) as (u & c & Hu & Hfalse & _).
      simpl. unfold is_unclear at 1. rewrite Hu, Hfalse. simpl.
      constructor; assumption.
    + destruct (IH _ _ Hloop) as (signs & -> & Hall & Hkept).
      exists signs. split; [reflexivity|]. split; [constructor; eauto|].
      simpl. unfold is_unclear at 1.
      rewrite Hunclear, (traffic_sign_body_skip_inv _ _ Hunclear Hturn). simpl.
      exact Hkept.
Qed.

Lemma parse_traffic_sign_returns_inv (files : gmap string file_content) (path : string)
    (out : list TrafficSignAnnotation) :
  parse_traffic_sign_annotation files path = Return out ->
  ∃ annotation records,
    _read_annotation_file files path = Return annotation
    ∧ py_iter annotation = Return records
    ∧ Forall (fun record => ∃ turn, traffic_sign_body record = Return turn) records
    ∧ Forall2 (fun record sign => traffic_sign_body record = Return (Some sign))
        (List.filter (fun record => negb (is_unclear record)) records) out.
Proof.
  unfold parse_traffic_sign_annotation. intros Hparse.
  bind_inv Hparse annotation Hread. bind_inv Hparse records Hiter.
  destruct (traffic_sign_loop_returns_inv _ _ _ Hparse) as (signs & -> & Hall & Hkept).
  exists annotation, records. auto.
Qed.

Lemma Forall2_In_r {A B} (P : A -> B -> Prop) (f : A -> bool) (xs : list A) (ys : list B) (y : B) :
  Forall2 P (List.filter f xs) ys -> In y ys -> ∃ x, In x xs ∧ f x = true ∧ P x y.
Proof.
  intros Hall Hy.
  assert (∃ x, In x (List.filter f xs) ∧ P x y) as (x & Hx & HP).
  { clear -Hall Hy. induction Hall as [|x y' xs' ys' HP _ IH]; [contradiction|].
    destruct Hy as [->|Hy].
    - exists x. split; [left; reflexivity | exact HP].
    - destruct (IH Hy) as (x0 & Hx0 & HP0). exists x0. split; [right; exact Hx0 | exact HP0]. }
  apply filter_In in Hx. destruct Hx as (Hx & Hf). exists x. auto.
Qed.

(** C1, as amended.  In whatever [parse_traffic_sign_annotation] returns
    for a file, a record was passed over exactly when its
    [properties.unclear] is true under Python's truth test (the boolean
    true, and also a non-zero number or a non-empty string, array or
    object); a record whose [properties.unclear] is the boolean true is
    passed over; and the output holds, in order, one annotation for each
    record that was not passed over and nothing else. *)
Theorem traffic_sign_skips_truthy_unclear (files : gmap string file_content) (path : string)
    (out : list TrafficSignAnnotation) :
  parse_traffic_sign_annotation files path = Return out ->
  ∃ annotation records,
    _read_annotation_file files path = Return annotation
    ∧ py_iter annotation = Return records
    ∧ Forall (fun record =>
                ∃ unclear, unclear_of record = Return unclear
                  ∧ (traffic_sign_body record = Return None <-> truthy unclear = true)
                  ∧ (unclear = PyBool true -> traffic_sign_body record = Return None)) records
    ∧ Forall2 (fun record sign => traffic_sign_body record = Return (Some sign))
        (List.filter (fun record => negb (is_unclear record)) records) out.
Proof.
  intros Hparse.
  destruct (parse_traffic_sign_returns_inv _ _ _ Hparse)
    as (annotation & records & Hread & Hiter & Hall & Hkept).
  exists annotation, records. repeat split; try assumption.
  eapply Forall_impl; [exact Hall|]. intros record (turn & Hturn). simpl.
  destruct (traffic_sign_body_returns_unclear _ _ Hturn) as (unclear & Hunclear).
  exists unclear. split; [exact Hunclear|]. split.
  - apply traffic_sign_body_skip_iff, Hunclear.
  - intros ->. eapply traffic_sign_body_skip; [exact Hunclear | reflexivity].
Qed.

(** C5.  Every annotation [parse_traffic_sign_annotation] returns comes
    from a record of the file: its [traffic_sign_idx] is what
    [get_class_idx] returns for that record's [properties.class], and its
    [annotation_uuid] and its [uuid] are both that record's
    [properties.annotation_uuid]. *)
Theorem traffic_sign_index_and_uuid (files : gmap string file_content) (path : string)
    (out : list TrafficSignAnnotation) (sign : TrafficSignAnnotation) :
  parse_traffic_sign_annotation files path = Return out ->
  In sign out ->
  ∃ annotation records record label ident,
    _read_annotation_file files path = Return annotation
    ∧ py_iter annotation = Return records
    ∧ In record records
    ∧ py_getitem2 record "properties" "class" = Return label
    ∧ get_class_idx label = Return (traffic_sign_idx sign)
    ∧ py_getitem2 record "properties" "annotation_uuid" = Return ident
    ∧ annotation_uuid sign = ident
    ∧ uuid sign = ident.
Proof.
  intros Hparse Hsign.
  destruct (parse_traffic_sign_returns_inv _ _ _ Hparse)
    as (annotation & records & Hread & Hiter & _ & Hkept).
  destruct (Forall2_In_r _ _ _ _ _ Hkept Hsign) as (record & Hrecord & _ & Hbody).
  destruct (traffic_sign_body_keep_inv _ _ Hbody)
    as (u & c & _ & _ & _ & _ & Hclass & Hidx & _ & Hid & _ & Huuid).
  exists annotation, records, record, (traffic_sign_class sign), (annotation_uuid sign).
  repeat split; assumption.
Qed.

(** C10.  A record whose [properties.unclear] is truthy is passed over
    on the strength of that one field: whatever else the record holds or
    lacks ([geometry], [class], [occlusion_ratio], [annotation_uuid],
    [is_electronic]), the turn neither raises nor appends.  A record that
    yields an annotation has a falsy [properties.unclear] and every one
    of those fields. *)
Theorem unclear_record_needs_no_other_field (record properties unclear : pyval)
    (rest : list pyval) (acc : list TrafficSignAnnotation) :
  py_getitem record "properties" = Return properties ->
  py_getitem properties "unclear" = Return unclear ->
  truthy unclear = true ->
  traffic_sign_body record = Return None
  ∧ traffic_sign_loop (record :: rest) acc = traffic_sign_loop rest acc
  ∧ (∀ other sign,
       traffic_sign_body other = Return (Some sign) ->
       is_unclear other = false
       ∧ returns (py_getitem2 other "geometry" "coordinates") = true
       ∧ returns (py_getitem2 other "properties" "class") = true
       ∧ returns (py_getitem2 other "properties" "occlusion_ratio") = true
       ∧ returns (py_getitem2 other "properties" "annotation_uuid") = true
       ∧ returns (py_getitem2 other "properties" "is_electronic") = true).
Proof.
  intros Hproperties Hunclear Htruthy.
  assert (traffic_sign_body record = Return None) as Hskip.
  { apply (traffic_sign_body_skip record unclear); [|exact Htruthy].
    unfold unclear_of, py_getitem2. rewrite Hproperties. exact Hunclear. }
  split; [exact Hskip|]. split.
  - simpl. rewrite Hskip. reflexivity.
  - intros other sign Hbody.
    destruct (traffic_sign_body_keep_inv _ _ Hbody)
      as (u & c & Hu & Hfalse & Hc & _ & Hclass & _ & Hocc & Hid & Hel & _).
    unfold is_unclear. rewrite Hu, Hc, Hclass, Hocc, Hid, Hel. simpl.
    repeat split; [exact Hfalse].
Qed.

End TrafficSigns.

Lemma traffic_sign_skips_truthy_unclear_witness :
  ∃ annotation records,
    _read_annotation_file Sample.files "signs.json" = Return annotation
    ∧ py_iter annotation = Return records
    ∧ Forall (fun record =>
                ∃ unclear, unclear_of record = Return unclear
                  ∧ (traffic_sign_body (H := Sample.collaborators) record = Return None
                     <-> truthy unclear = true)
                  ∧ (unclear = PyBool true ->
                     traffic_sign_body (H := Sample.collaborators) record = Return None)) records
    ∧ Forall2 (fun record sign =>
                 traffic_sign_body (H := Sample.collaborators) record = Return (Some sign))
        (List.filter (fun record => negb (is_unclear record)) records)
        [ mkTrafficSignAnnotation (H := Sample.collaborators) Sample.point00 (PyStr "stop") 0
            Sample.tenth (PyStr "a2") (PyBool false) (PyStr "a2") ].
Proof.
  apply (traffic_sign_skips_truthy_unclear (H := Sample.collaborators) Sample.files "signs.json").
  reflexivity.
Defined.

(** C1, the claim as stated fails: [properties.unclear] of this record
    is the string ["false"], not the boolean true, and the record is
    passed over all the same; the file that holds it parses to the empty
    list. *)
Lemma unclear_text_is_skipped :
  unclear_of (Sample.sign (PyStr "false") "a3") = Return (PyStr "false")
  ∧ PyStr "false" ≠ PyBool true
  ∧ traffic_sign_body (H := Sample.collaborators) (Sample.sign (PyStr "false") "a3") = Return None
  ∧ Sample.files !! "marked_as_text.json" = Some (Json (PyList [Sample.sign (PyStr "false") "a3"]))
  ∧ parse_traffic_sign_annotation (H := Sample.collaborators) Sample.files "marked_as_text.json"
    = Return [].
Proof.
  split; [reflexivity|]. split; [discriminate|]. repeat split; reflexivity.
Qed.

Lemma traffic_sign_index_and_uuid_witness :
  ∃ annotation records record label ident,
    _read_annotation_file Sample.files "signs.json" = Return annotation
    ∧ py_iter annotation = Return records
    ∧ In record records
    ∧ py_getitem2 record "properties" "class" = Return label
    ∧ get_class_idx (Collaborators := Sample.collaborators) label = Return 0%Z
    ∧ py_getitem2 record "properties" "annotation_uuid" = Return ident
    ∧ PyStr "a2" = ident
    ∧ PyStr "a2" = ident.
Proof.
  apply (traffic_sign_index_and_uuid (H := Sample.collaborators) Sample.files "signs.json"
           [ mkTrafficSignAnnotation (H := Sample.collaborators) Sample.point00 (PyStr "stop") 0
               Sample.tenth (PyStr "a2") (PyBool false) (PyStr "a2") ]
           (mkTrafficSignAnnotation (H := Sample.collaborators) Sample.point00 (PyStr "stop") 0
               Sample.tenth (PyStr "a2") (PyBool false) (PyStr "a2"))).
  - reflexivity.
  - left. reflexivity.
Defined.

Lemma unclear_record_needs_no_other_field_witness :
  traffic_sign_body (H := Sample.collaborators) Sample.bare_unclear = Return None
  ∧ parse_traffic_sign_annotation (H := Sample.collaborators) Sample.files "bare.json" = Return [].
Proof.
  destruct (unclear_record_needs_no_other_field (H := Sample.collaborators)
              Sample.bare_unclear (PyDict [("unclear", PyBool true)]) (PyBool true) [] [])
    as (Hbody & Hloop & _); try reflexivity.
  split; [exact Hbody | exact Hloop].
Defined.

(** ** Lane markings and ego road *)

Section Polygons.

Variable classes : list string.

Lemma lane_markings_loop_cons (annotation : pyval) (rest polygons : list pyval) :
  lane_markings_loop classes (annotation :: rest) polygons =
    (properties ← py_getitem annotation "properties";
     has_class ← py_contains "class" properties;
     if (has_class : bool) then
       annotated_class ← py_getitem2 annotation "properties" "class";
       if label_in annotated_class classes then
         coordinates ← py_getitem2 annotation "geometry" "coordinates";
         lane_markings_loop classes rest (polygons ++ [coordinates])
       else lane_markings_loop classes rest polygons
     else lane_markings_loop classes rest polygons).
Proof. reflexivity. Qed.

Lemma ego_road_loop_cons (annotation : pyval) (rest polygons : list pyval) :
  ego_road_loop classes (annotation :: rest) polygons =
    (properties ← py_getitem annotation "properties";
     has_class ← py_contains "class" properties;
     if (has_class : bool) then
       annotated_class ← py_getitem2 annotation "properties" "class";
       if label_in annotated_class classes then
         coordinates ← py_getitem2 annotation "geometry" "coordinates";
         ego_road_loop classes rest (polygons ++ [coordinates])
       else ego_road_loop classes rest polygons
     else ego_road_loop classes rest polygons).
Proof. reflexivity. Qed.

(** The two loops are the same function. *)
Lemma ego_road_loop_lane_markings_loop (annotations polygons : list pyval) :
  ego_road_loop classes annotations polygons = lane_markings_loop classes annotations polygons.
Proof.
  revert polygons. induction annotations as [|annotation rest IH]; intros polygons.
  - reflexivity.
  - rewrite lane_markings_loop_cons, ego_road_loop_cons.
    destruct (py_getitem annotation "properties") as [properties|e]; [|reflexivity].
    rewrite !bind_Return.
    destruct (py_contains "class" properties) as [[|]|e]; [| |reflexivity]; rewrite !bind_Return.
    + destruct (py_getitem2 annotation "properties" "class") as [class|e]; [|reflexivity].
      rewrite !bind_Return. destruct (label_in class classes); [|apply IH].
      destruct (py_getitem2 annotation "geometry" "coordinates") as [c|e]; [|reflexivity].
      rewrite !bind_Return. apply IH.
    + apply IH.
Qed.

Lemma label_in_inv (class : pyval) :
  label_in class classes = true -> ∃ label, class = PyStr label ∧ In label classes.
Proof.
  destruct class as [| | | |label| |]; try discriminate.
  intros Hin. exists label. split; [reflexivity | apply label_in_spec, Hin].
Qed.

Lemma label_in_other (class : pyval) :
  (∀ label, class = PyStr label -> ¬ In label classes) -> label_in class classes = false.
Proof.
  intros Hother. destruct (label_in class classes) eqn:Hin; [|reflexivity].
  destruct (label_in_inv _ Hin) as (label & -> & Hlabel).
  exfalso. exact (Hother label eq_refl Hlabel).
Qed.

Lemma has_property_contains (record : pyval) (key : string) (v : pyval) :
  has_property record key v ->
  ∃ properties, py_getitem record "properties" = Return properties
                ∧ py_contains key properties = Return true
                ∧ py_getitem2 record "properties" key = Return v.
Proof.
  intros (entries & Hproperties & Hkey). exists (PyDict entries).
  split; [exact Hproperties|]. split.
  - simpl. rewrite Hkey. reflexivity.
  - rewrite (py_getitem2_dict _ _ _ _ Hproperties), Hkey. reflexivity.
Qed.

Lemma lacks_property_contains (record : pyval) (key : string) :
  lacks_property record key ->
  ∃ properties, py_getitem record "properties" = Return properties
                ∧ py_contains key properties = Return false.
Proof.
  intros (entries & Hproperties & Hkey). exists (PyDict entries).
  split; [exact Hproperties|]. simpl. rewrite Hkey. reflexivity.
Qed.

(** The loop computes what [selected] describes. *)
Lemma lane_markings_loop_selected (records polygons : list pyval) :
  selected classes records polygons ->
  ∀ acc, lane_markings_loop classes records acc = Return (acc ++ polygons)%list.
Proof.
  induction 1 as [ | record rest polygons Hlacks _ IH
                   | record rest polygons label coordinates Hclass Hin Hcoordinates _ IH
                   | record rest polygons class Hclass Hother _ IH ]; intros acc.
  - simpl. rewrite app_nil_r. reflexivity.
  - destruct (lacks_property_contains _ _ Hlacks) as (properties & Hproperties & Hcontains).
    rewrite lane_markings_loop_cons, Hproperties, bind_Return, Hcontains, bind_Return.
    apply IH.
  - destruct (has_property_contains _ _ _ Hclass) as (properties & Hproperties & Hcontains & Hget).
    rewrite lane_markings_loop_cons, Hproperties, bind_Return, Hcontains, bind_Return.
    rewrite Hget, bind_Return.
    rewrite (proj2 (label_in_spec label classes) Hin), Hcoordinates, bind_Return.
    rewrite IH, <- app_assoc. reflexivity.
  - destruct (has_property_contains _ _ _ Hclass) as (properties & Hproperties & Hcontains & Hget).
    rewrite lane_markings_loop_cons, Hproperties, bind_Return, Hcontains, bind_Return.
    rewrite Hget, bind_Return, (label_in_other _ Hother).
    apply IH.
Qed.

Lemma from_allowed_record_cons (record : pyval) (rest : list pyval) (polygon : pyval) :
  from_allowed_record classes rest polygon ->
  from_allowed_record classes (record :: rest) polygon.
Proof.
  intros (r & label & Hr & Hrest). exists r, label. split; [right; exact Hr | exact Hrest].
Qed.

Lemma lane_markings_loop_returns_inv (records acc out : list pyval) :
  lane_markings_loop classes records acc = Return out ->
  ∃ polygons, out = (acc ++ polygons)%list ∧ Forall (from_allowed_record classes records) polygons.
Proof.
  revert acc out. induction records as [|record rest IH]; intros acc out Hloop.
  - simpl in Hloop. inversion Hloop; subst. exists []. rewrite app_nil_r. auto.
  - rewrite lane_markings_loop_cons in Hloop.
    bind_inv Hloop properties Hproperties. bind_inv Hloop has_class Hcontains.
    assert (∀ acc', lane_markings_loop classes rest acc' = Return out ->
              ∃ polygons, out = (acc' ++ polygons)%list
                          ∧ Forall (from_allowed_record classes (record :: rest)) polygons) as Hrest.
    { intros acc' Hacc'. destruct (IH _ _ Hacc') as (polygons & -> & Hall).
      exists polygons. split; [reflexivity|].
      eapply Forall_impl; [exact Hall|]. apply from_allowed_record_cons. }
    destruct has_class; [|apply Hrest, Hloop].
    bind_inv Hloop class Hclass.
    destruct (label_in class classes) eqn:Hin; [|apply Hrest, Hloop].
    bind_inv Hloop coordinates Hcoordinates.
    destruct (Hrest _ Hloop) as (polygons & -> & Hall).
    exists (coordinates :: polygons). rewrite <- app_assoc. split; [reflexivity|].
    constructor; [|exact Hall].
    destruct (label_in_inv _ Hin) as (label & -> & Hlabel).
    exists record, label. split; [left; reflexivity | auto].
Qed.

End Polygons.

(** C3.  For a file that holds a JSON array and any allow-list: the
    lane-marking and the ego-road parser return what [selected]
    describes, that is, a record without a [class] under [properties] is
    passed over with no error, a record whose class label is in the
    allow-list gives its [geometry.coordinates] as they are, any other
    record is passed over, and the polygons come in the order of their
    records; and every polygon either parser returns is the
    [geometry.coordinates] of a record whose class label is in the
    allow-list. *)
Theorem allow_list_selects_polygons (files : gmap string file_content) (path : string)
    (classes : list string) (records : list pyval) :
  _read_annotation_file files path = Return (PyList records) ->
  (∀ polygons, selected classes records polygons ->
     parse_lane_markings_annotation files path classes = Return polygons
     ∧ parse_ego_road_annotation files path classes = Return polygons)
  ∧ (∀ out,
       parse_lane_markings_annotation files path classes = Return out
       ∨ parse_ego_road_annotation files path classes = Return out ->
       Forall (from_allowed_record classes records) out).
Proof.
  intros Hread.
  unfold parse_lane_markings_annotation, parse_ego_road_annotation.
  rewrite Hread, !bind_Return. simpl py_iter. rewrite !bind_Return.
  pose proof (ego_road_loop_lane_markings_loop classes records []) as Hego.
  split.
  - intros polygons Hselected.
    pose proof (lane_markings_loop_selected _ _ _ Hselected []) as Hlane.
    split; [exact Hlane | exact (eq_trans Hego Hlane)].
  - intros out [Hout|Hout].
    + destruct (lane_markings_loop_returns_inv _ _ _ _ Hout) as (polygons & -> & Hall).
      exact Hall.
    + destruct (lane_markings_loop_returns_inv _ _ _ _ (eq_trans (eq_sym Hego) Hout))
        as (polygons & -> & Hall).
      exact Hall.
Qed.

Lemma allow_list_selects_polygons_witness :
  parse_lane_markings_annotation Sample.files "lanes.json" ["lm_dashed"; "lm_solid"]
    = Return [Sample.dashed_polygon]
  ∧ parse_ego_road_annotation Sample.files "lanes.json" ["lm_dashed"; "lm_solid"]
    = Return [Sample.dashed_polygon].
Proof.
  apply (allow_list_selects_polygons Sample.files "lanes.json" ["lm_dashed"; "lm_solid"]
           Sample.lane_records).
  - reflexivity.
  - eapply selected_member with (label := "lm_dashed").
    + eexists. split; reflexivity.
    + left. reflexivity.
    + reflexivity.
    + eapply selected_no_class.
      * eexists. split; reflexivity.
      * eapply selected_other with (class := PyStr "other").
        -- eexists. split; reflexivity.
        -- intros label [= <-] [Hin|[Hin|[]]]; discriminate.
        -- apply selected_done.
Defined.

(** C6.  Given the same file system, path and explicitly supplied
    allow-list, [parse_lane_markings_annotation] and
    [parse_ego_road_annotation] have the same outcome: the same output
    sequence or the same exception.  So have the two calls that bind
    [classes] to the same list object. *)
Theorem lane_markings_and_ego_road_agree (files : gmap string file_content) (path : string) :
  (∀ classes : list string,
     parse_lane_markings_annotation files path classes
     = parse_ego_road_annotation files path classes)
  ∧ (∀ (σ : gmap loc (list string)) (supplied : loc),
       call_parse_lane_markings_annotation σ files path (Some supplied)
       = call_parse_ego_road_annotation σ files path (Some supplied)).
Proof.
  assert (∀ classes : list string,
            parse_lane_markings_annotation files path classes
            = parse_ego_road_annotation files path classes) as Hagree.
  { intros classes. unfold parse_lane_markings_annotation, parse_ego_road_annotation.
    destruct (_read_annotation_file files path) as [annotations|e]; [|reflexivity].
    rewrite !bind_Return. destruct (py_iter annotations) as [records|e]; [|reflexivity].
    rewrite !bind_Return. symmetry. apply ego_road_loop_lane_markings_loop. }
  split; [exact Hagree|].
  intros σ supplied.
  unfold call_parse_lane_markings_annotation, call_parse_ego_road_annotation, call_with_classes.
  simpl. destruct (σ !! supplied) as [classes|]; [|reflexivity].
  rewrite Hagree. reflexivity.
Qed.

(** ** Calling a parser again *)

Lemma read_annotation_file_local (files files' : gmap string file_content) (path : string) :
  files !! path = files' !! path ->
  _read_annotation_file files path = _read_annotation_file files' path.
Proof. unfold _read_annotation_file, py_open. intros ->. reflexivity. Qed.

(** ** The registry *)

(** C8.  [ANNOTATION_PARSERS] has four items; each of the four
    annotation projects is the key of exactly one of them; and the item
    of a project is that project's parser: the lane-marking parser with
    its default object for [LANE_MARKINGS], the ego-road parser with its
    default object for [EGO_ROAD], the object-detection parser for
    [OBJECT_DETECTION], the traffic-sign parser for [TRAFFIC_SIGNS]. *)
Theorem registry_one_parser_per_project `{Collaborators} :
  length ANNOTATION_PARSERS = 4
  ∧ (∀ project, registry_count ANNOTATION_PARSERS project = 1)
  ∧ registry_get ANNOTATION_PARSERS LANE_MARKINGS
    = Some (PathClassesFunction parse_lane_markings_annotation lane_markings_defaults)
  ∧ registry_get ANNOTATION_PARSERS EGO_ROAD
    = Some (PathClassesFunction parse_ego_road_annotation ego_road_defaults)
  ∧ registry_get ANNOTATION_PARSERS OBJECT_DETECTION
    = Some (PathFunction ObjectAnnotation parse_object_detection_annotation)
  ∧ registry_get ANNOTATION_PARSERS TRAFFIC_SIGNS
    = Some (PathFunction TrafficSignAnnotation parse_traffic_sign_annotation).
Proof.
  split; [reflexivity|]. split; [intros []; reflexivity|].
  repeat split; reflexivity.
Qed.

(** ** Scenarios *)

(** An empty top-level array gives an empty result with every parser. *)
Example empty_array_parses_to_nothing :
  parse_object_detection_annotation (H := Sample.collaborators) Sample.files "empty.json" = Return []
  ∧ parse_traffic_sign_annotation (H := Sample.collaborators) Sample.files "empty.json" = Return []
  ∧ parse_lane_markings_annotation Sample.files "empty.json" ["lm_dashed"; "lm_solid"] = Return []
  ∧ parse_ego_road_annotation Sample.files "empty.json" ["EgoRoad_Road"] = Return [].
Proof. repeat split; reflexivity. Qed.

(** A path with nothing behind it, and a file that is not JSON. *)
Example missing_and_broken_files :
  parse_object_detection_annotation (H := Sample.collaborators) Sample.files "nowhere.json"
  = Raise FileNotFoundError
  ∧ parse_lane_markings_annotation Sample.files "broken.json" ["lm_dashed"; "lm_solid"]
    = Raise JSONDecodeError.
Proof. split; reflexivity. Qed.

(** An unclear sign is dropped and a clear one kept, with its uuid twice. *)
Example one_unclear_one_clear :
  parse_traffic_sign_annotation (H := Sample.collaborators) Sample.files "signs.json"
  = Return [ mkTrafficSignAnnotation (H := Sample.collaborators) Sample.point00 (PyStr "stop") 0
               Sample.tenth (PyStr "a2") (PyBool false) (PyStr "a2") ].
Proof. reflexivity. Qed.

(** A record that lacks a field the traffic-sign parser needs aborts the
    parse, while the lane-marking parser passes over a record without a
    class. *)
Example strict_and_lenient :
  parse_traffic_sign_annotation (H := Sample.collaborators) Sample.files "lanes.json"
  = Raise (KeyError "unclear")
  ∧ parse_lane_markings_annotation Sample.files "bare.json" ["lm_dashed"; "lm_solid"] = Return [].
Proof. split; reflexivity. Qed.

(* ===================================================================== *)
(** * Further properties of the parsers                                   *)
(* ===================================================================== *)

(** ** What the loader passes on *)

(** X1.  None of the four parsers catches what the loader raises: when
    [_read_annotation_file] raises, for a missing file or for text that is
    not JSON, each parser raises the same exception, and a call with the
    default or a supplied allow-list raises it too and leaves the store as
    it was. *)
Theorem loader_errors_propagate `{Collaborators}
    (files : gmap string file_content) (path : string) (e : exn) :
  _read_annotation_file files path = Raise e ->
  parse_object_detection_annotation files path = Raise e
  ∧ parse_traffic_sign_annotation files path = Raise e
  ∧ (∀ classes, parse_lane_markings_annotation files path classes = Raise e)
  ∧ (∀ classes, parse_ego_road_annotation files path classes = Raise e)
  ∧ (∀ σ arg, is_Some (σ !! bind_classes lane_markings_defaults arg) ->
       call_parse_lane_markings_annotation σ files path arg = Some (Raise e, σ))
  ∧ (∀ σ arg, is_Some (σ !! bind_classes ego_road_defaults arg) ->
       call_parse_ego_road_annotation σ files path arg = Some (Raise e, σ)).
Proof.
  intros Hread.
  assert (∀ classes, parse_lane_markings_annotation files path classes = Raise e) as Hlane.
  { intros classes. unfold parse_lane_markings_annotation. rewrite Hread. reflexivity. }
  assert (∀ classes, parse_ego_road_annotation files path classes = Raise e) as Hego.
  { intros classes. unfold parse_ego_road_annotation. rewrite Hread. reflexivity. }
  split; [unfold parse_object_detection_annotation; rewrite Hread; reflexivity|].
  split; [unfold parse_traffic_sign_annotation; rewrite Hread; reflexivity|].
  split; [exact Hlane|]. split; [exact Hego|].
  split; intros σ arg (classes & Hclasses).
  - unfold call_parse_lane_markings_annotation, call_with_classes.
    rewrite Hclasses, Hlane. reflexivity.
  - unfold call_parse_ego_road_annotation, call_with_classes.
    rewrite Hclasses, Hego. reflexivity.
Qed.

Lemma loader_errors_propagate_witness :
  parse_traffic_sign_annotation (H := Sample.collaborators) Sample.files "broken.json"
  = Raise JSONDecodeError.
Proof.
  apply (loader_errors_propagate (H := Sample.collaborators) Sample.files "broken.json").
  reflexivity.
Defined.

(** ** A file whose top-level value is no array *)

Lemma py_iter_scalar (v : pyval) : is_scalar v = true -> py_iter v = Raise TypeError.
Proof. destruct v; (discriminate || reflexivity). Qed.

Lemma chars_are_str (s : string) : Forall (fun item => ∃ text, item = PyStr text) (chars s).
Proof. induction s as [|c rest IH]; simpl; constructor; eauto. Qed.

(** Iterating over anything but a list gives [str] items only. *)
Lemma py_iter_not_list (v : pyval) (items : list pyval) :
  (∀ elements, v ≠ PyList elements) ->
  py_iter v = Return items ->
  Forall (fun item => ∃ text, item = PyStr text) items.
Proof.
  intros Hnot Hiter. destruct v as [| | | |s|elements|entries]; try discriminate.
  - inversion Hiter; subst. apply chars_are_str.
  - exfalso. exact (Hnot elements eq_refl).
  - inversion Hiter; subst. clear. induction entries as [|[k x] rest IH]; simpl; constructor; eauto.
Qed.

(** Each parser, once the loader has returned. *)
Lemma parsers_after_read `{Collaborators}
    (files : gmap string file_content) (path : string) (document : pyval) :
  _read_annotation_file files path = Return document ->
  parse_object_detection_annotation files path
  = (py_iter document ≫= object_detection_comprehension)
  ∧ parse_traffic_sign_annotation files path
    = (py_iter document ≫= fun objs => traffic_sign_loop objs [])
  ∧ (∀ classes, parse_lane_markings_annotation files path classes
                = (py_iter document ≫= fun records => lane_markings_loop classes records []))
  ∧ (∀ classes, parse_ego_road_annotation files path classes
                = (py_iter document ≫= fun records => ego_road_loop classes records [])).
Proof.
  intros Hread.
  unfold parse_object_detection_annotation, parse_traffic_sign_annotation,
    parse_lane_markings_annotation, parse_ego_road_annotation.
  rewrite Hread. repeat split; reflexivity.
Qed.

(** X2.  When the file's top-level value is [null], a boolean or a number,
    the loader returns it without complaint and each of the four parsers
    then raises [TypeError] at its loop, the value not being iterable. *)
Theorem scalar_document_raises_type_error `{Collaborators}
    (files : gmap string file_content) (path : string) (document : pyval) :
  files !! path = Some (Json document) ->
  is_scalar document = true ->
  _read_annotation_file files path = Return document
  ∧ parse_object_detection_annotation files path = Raise TypeError
  ∧ parse_traffic_sign_annotation files path = Raise TypeError
  ∧ (∀ classes, parse_lane_markings_annotation files path classes = Raise TypeError)
  ∧ (∀ classes, parse_ego_road_annotation files path classes = Raise TypeError).
Proof.
  intros Hfile Hscalar. apply read_document in Hfile.
  pose proof (py_iter_scalar _ Hscalar) as Hiter.
  split; [exact Hfile|].
  destruct (parsers_after_read _ _ _ Hfile) as (-> & -> & Hlane & Hego).
  rewrite Hiter. split; [reflexivity|]. split; [reflexivity|].
  split; intros classes; [rewrite Hlane | rewrite Hego]; rewrite Hiter; reflexivity.
Qed.

Lemma scalar_document_raises_type_error_witness :
  parse_object_detection_annotation (H := Sample.collaborators) Edge.files "null.json"
  = Raise TypeError.
Proof.
  apply (scalar_document_raises_type_error (H := Sample.collaborators)
           Edge.files "null.json" PyNone); reflexivity.
Defined.

(** X3.  When the file's top-level value is a JSON object or a JSON
    string, the loops run over its keys or its characters, which are
    strings: an empty object or string gives the empty result with all
    four parsers, and a non-empty one makes the traffic-sign, the
    lane-marking and the ego-road parser raise [TypeError] at the first
    item, a string having no ["properties"]. *)
Theorem mapping_or_text_document `{Collaborators}
    (files : gmap string file_content) (path : string) (document : pyval)
    (items : list pyval) :
  _read_annotation_file files path = Return document ->
  (∀ elements, document ≠ PyList elements) ->
  py_iter document = Return items ->
  (items = [] ->
     parse_object_detection_annotation files path = Return []
     ∧ parse_traffic_sign_annotation files path = Return []
     ∧ (∀ classes, parse_lane_markings_annotation files path classes = Return [])
     ∧ (∀ classes, parse_ego_road_annotation files path classes = Return []))
  ∧ (items ≠ [] ->
     parse_traffic_sign_annotation files path = Raise TypeError
     ∧ (∀ classes, parse_lane_markings_annotation files path classes = Raise TypeError)
     ∧ (∀ classes, parse_ego_road_annotation files path classes = Raise TypeError)).
Proof.
  intros Hread Hnot Hiter.
  pose proof (py_iter_not_list _ _ Hnot Hiter) as Hstr.
  destruct (parsers_after_read _ _ _ Hread) as (-> & -> & Hlane & Hego).
  rewrite Hiter. split.
  - intros ->. split; [reflexivity|]. split; [reflexivity|].
    split; intros classes; [rewrite Hlane | rewrite Hego]; rewrite Hiter; reflexivity.
  - intros Hnonempty. destruct items as [|item rest]; [congruence|].
    inversion Hstr as [|? ? (text & ->) _]; subst.
    split; [reflexivity|].
    split; intros classes; [rewrite Hlane | rewrite Hego]; rewrite Hiter; reflexivity.
Qed.

Lemma mapping_or_text_document_witness :
  parse_traffic_sign_annotation (H := Sample.collaborators) Edge.files "object.json"
  = Raise TypeError.
Proof.
  apply (mapping_or_text_document (H := Sample.collaborators)
           Edge.files "object.json" (PyDict [("type", PyStr "FeatureCollection")])
           [PyStr "type"]); try reflexivity; discriminate.
Defined.

(** ** Traffic signs: strictness *)

Section TrafficSignsStrict.

Context `{Collaborators}.

Lemma traffic_sign_loop_raises (before after : list pyval) (record : pyval) (e : exn) :
  Forall (fun r => ∃ turn, traffic_sign_body r = Return turn) before ->
  traffic_sign_body record = Raise e ->
  ∀ acc, traffic_sign_loop (before ++ record :: after) acc = Raise e.
Proof.
  intros Hbefore Hrecord.
  induction Hbefore as [|r rest (turn & Hturn) _ IH]; intros acc; simpl.
  - rewrite Hrecord. reflexivity.
  - rewrite Hturn, bind_Return. destruct turn; apply IH.
Qed.

Lemma traffic_sign_loop_returns (records : list pyval) :
  Forall (fun r => ∃ turn, traffic_sign_body r = Return turn) records ->
  ∀ acc, ∃ signs, traffic_sign_loop records acc = Return (acc ++ signs)%list.
Proof.
  induction 1 as [|r rest (turn & Hturn) _ IH]; intros acc; simpl.
  - exists []. rewrite app_nil_r. reflexivity.
  - rewrite Hturn, bind_Return. destruct turn as [sign|].
    + destruct (IH (acc ++ [sign])%list) as (signs & ->).
      exists (sign :: signs). rewrite <- app_assoc. reflexivity.
    + apply IH.
Qed.

(** X4.  The traffic-sign parser is all or nothing: when the turn of
    some record raises and the turns of all records before it went
    through, the call raises that exception; the annotations gathered
    from the earlier records are not returned and the later records are
    not looked at. *)
Theorem traffic_sign_first_failure_aborts
    (files : gmap string file_content) (path : string)
    (before after : list pyval) (record : pyval) (e : exn) :
  _read_annotation_file files path = Return (PyList (before ++ record :: after)) ->
  Forall (fun r => ∃ turn, traffic_sign_body r = Return turn) before ->
  traffic_sign_body record = Raise e ->
  parse_traffic_sign_annotation files path = Raise e.
Proof.
  intros Hread Hbefore Hrecord.
  destruct (parsers_after_read _ _ _ Hread) as (_ & -> & _).
  simpl py_iter. rewrite bind_Return.
  apply traffic_sign_loop_raises; assumption.
Qed.

(** X5.  When the file holds an array and the turn of every record goes
    through (the record is passed over or converted), the traffic-sign
    parser returns, with exactly as many annotations as there are
    records whose [properties.unclear] is falsy, hence never more than
    there are records. *)
Theorem traffic_sign_returns_one_per_clear_record
    (files : gmap string file_content) (path : string) (records : list pyval) :
  _read_annotation_file files path = Return (PyList records) ->
  Forall (fun r => ∃ turn, traffic_sign_body r = Return turn) records ->
  ∃ out,
    parse_traffic_sign_annotation files path = Return out
    ∧ length out = length (List.filter (fun record => negb (is_unclear record)) records)
    ∧ length out <= length records.
Proof.
  intros Hread Hall.
  destruct (parsers_after_read _ _ _ Hread) as (_ & -> & _).
  simpl py_iter. rewrite bind_Return.
  destruct (traffic_sign_loop_returns records Hall []) as (signs & Hloop).
  exists signs. split; [exact Hloop|].
  destruct (traffic_sign_loop_returns_inv _ _ _ Hloop) as (signs' & Heq & _ & Hkept).
  simpl in Heq. subst signs'.
  pose proof (Forall2_length _ _ _ Hkept) as Hlength.
  split; [symmetry; exact Hlength|].
  rewrite <- Hlength. apply List.filter_length_le.
Qed.

(** X6.  For a record with a [properties] mapping, the exception names
    the first field that is missing, in the order the loop reads them:
    no [unclear] gives [KeyError "unclear"] whatever else is there; with
    a falsy [unclear], whatever goes wrong reading [geometry.coordinates]
    is raised before any class field is read; and with the box built, no
    [class] gives [KeyError "class"]. *)
Theorem traffic_sign_missing_field (record : pyval) (entries : list (string * pyval)) :
  py_getitem record "properties" = Return (PyDict entries) ->
  (dict_get entries "unclear" = None ->
     traffic_sign_body record = Raise (KeyError "unclear"))
  ∧ (∀ unclear e,
       dict_get entries "unclear" = Some unclear ->
       truthy unclear = false ->
       py_getitem2 record "geometry" "coordinates" = Raise e ->
       traffic_sign_body record = Raise e)
  ∧ (∀ unclear coordinates box,
       dict_get entries "unclear" = Some unclear ->
       truthy unclear = false ->
       py_getitem2 record "geometry" "coordinates" = Return coordinates ->
       from_points coordinates FRONT = Return box ->
       dict_get entries "class" = None ->
       traffic_sign_body record = Raise (KeyError "class")).
Proof.
  intros Hproperties. unfold traffic_sign_body.
  rewrite !(py_getitem2_dict _ _ _ _ Hproperties).
  split; [intros ->; reflexivity|]. split.
  - intros unclear e -> Hfalsy Hgeometry.
    rewrite bind_Return, Hfalsy, Hgeometry. reflexivity.
  - intros unclear coordinates box -> Hfalsy Hgeometry Hbox Hclass.
    rewrite bind_Return, Hfalsy, Hgeometry, bind_Return, Hbox, bind_Return, Hclass.
    reflexivity.
Qed.

(** X7.  The parser catches nothing its collaborators raise: for a
    record that is not passed over, an exception of [Box2D.from_points]
    is the exception of the turn, and so is, once the box is built, an
    exception of [get_class_idx] for the record's class label (an
    unknown class). *)
Theorem traffic_sign_collaborator_failure (record unclear coordinates : pyval) :
  unclear_of record = Return unclear ->
  truthy unclear = false ->
  py_getitem2 record "geometry" "coordinates" = Return coordinates ->
  (∀ e, from_points coordinates FRONT = Raise e -> traffic_sign_body record = Raise e)
  ∧ (∀ box label e,
       from_points coordinates FRONT = Return box ->
       py_getitem2 record "properties" "class" = Return label ->
       get_class_idx label = Raise e ->
       traffic_sign_body record = Raise e).
Proof.
  unfold unclear_of, traffic_sign_body. intros -> Hfalsy ->.
  rewrite !bind_Return, Hfalsy. split.
  - intros e ->. reflexivity.
  - intros box label e -> -> Hidx. rewrite !bind_Return, Hidx. reflexivity.
Qed.

(** X8.  Every annotation the traffic-sign parser returns comes from a
    record of the file whose [properties.unclear] is falsy; its box is
    what [Box2D.from_points] returns for the record's
    [geometry.coordinates] and the front camera, and its class label,
    occlusion ratio and electronic-sign flag are the record's
    [properties.class], [properties.occlusion_ratio] and
    [properties.is_electronic] as they are, of whatever type and range. *)
Theorem traffic_sign_fields_copied (files : gmap string file_content) (path : string)
    (out : list TrafficSignAnnotation) (sign : TrafficSignAnnotation) :
  parse_traffic_sign_annotation files path = Return out ->
  In sign out ->
  ∃ annotation records record coordinates,
    _read_annotation_file files path = Return annotation
    ∧ py_iter annotation = Return records
    ∧ In record records
    ∧ is_unclear record = false
    ∧ py_getitem2 record "geometry" "coordinates" = Return coordinates
    ∧ from_points coordinates FRONT = Return (bounding_box sign)
    ∧ py_getitem2 record "properties" "class" = Return (traffic_sign_class sign)
    ∧ py_getitem2 record "properties" "occlusion_ratio" = Return (occlusion_ratio sign)
    ∧ py_getitem2 record "properties" "is_electronic" = Return (electronic_sign sign).
Proof.
  intros Hparse Hsign.
  destruct (parse_traffic_sign_returns_inv _ _ _ Hparse)
    as (annotation & records & Hread & Hiter & _ & Hkept).
  destruct (Forall2_In_r _ _ _ _ _ Hkept Hsign) as (record & Hrecord & Hclear & Hbody).
  destruct (traffic_sign_body_keep_inv _ _ Hbody)
    as (u & coordinates & _ & _ & Hc & Hbox & Hclass & _ & Hocc & _ & Hel & _).
  exists annotation, records, record, coordinates.
  apply negb_true_iff in Hclear. repeat split; assumption.
Qed.

End TrafficSignsStrict.

Lemma traffic_sign_first_failure_aborts_witness :
  parse_traffic_sign_annotation (H := Sample.collaborators) Edge.files "unknown_class.json"
  = Raise (ValueError "unknown class").
Proof.
  apply (traffic_sign_first_failure_aborts (H := Sample.collaborators)
           Edge.files "unknown_class.json"
           [Edge.sign_of_class "yield"] [Sample.bare_unclear] (Edge.sign_of_class "mystery")).
  - reflexivity.
  - constructor; [eexists; reflexivity | constructor].
  - reflexivity.
Defined.

Lemma traffic_sign_returns_one_per_clear_record_witness :
  ∃ out,
    parse_traffic_sign_annotation (H := Sample.collaborators) Sample.files "signs.json" = Return out
    ∧ length out = 1
    ∧ length out <= 2.
Proof.
  apply (traffic_sign_returns_one_per_clear_record (H := Sample.collaborators)
           Sample.files "signs.json"
           [Sample.sign (PyBool true) "a1"; Sample.sign (PyBool false) "a2"]).
  - reflexivity.
  - repeat constructor; eexists; reflexivity.
Defined.

Lemma traffic_sign_missing_field_witness :
  traffic_sign_body (H := Sample.collaborators) Edge.clear_and_bare
  = Raise (KeyError "geometry").
Proof.
  apply (traffic_sign_missing_field (H := Sample.collaborators)
           Edge.clear_and_bare [("unclear", PyInt 0)] eq_refl)
    with (unclear := PyInt 0); reflexivity.
Defined.

Lemma traffic_sign_collaborator_failure_witness :
  traffic_sign_body (H := Sample.collaborators) (Edge.sign_of_class "mystery")
  = Raise (ValueError "unknown class").
Proof.
  apply (traffic_sign_collaborator_failure (H := Sample.collaborators)
           (Edge.sign_of_class "mystery") (PyBool false) Sample.point00
           eq_refl eq_refl eq_refl)
    with (box := Sample.point00) (label := PyStr "mystery"); reflexivity.
Defined.

Lemma traffic_sign_fields_copied_witness :
  ∃ annotation records record coordinates,
    _read_annotation_file Sample.files "signs.json" = Return annotation
    ∧ py_iter annotation = Return records
    ∧ In record records
    ∧ is_unclear record = false
    ∧ py_getitem2 record "geometry" "coordinates" = Return coordinates
    ∧ from_points (Collaborators := Sample.collaborators) coordinates Sample.Front
      = Return Sample.point00
    ∧ py_getitem2 record "properties" "class" = Return (PyStr "stop")
    ∧ py_getitem2 record "properties" "occlusion_ratio" = Return Sample.tenth
    ∧ py_getitem2 record "properties" "is_electronic" = Return (PyBool false).
Proof.
  apply (traffic_sign_fields_copied (H := Sample.collaborators) Sample.files "signs.json"
           [ mkTrafficSignAnnotation (H := Sample.collaborators) Sample.point00 (PyStr "stop") 0
               Sample.tenth (PyStr "a2") (PyBool false) (PyStr "a2") ]
           (mkTrafficSignAnnotation (H := Sample.collaborators) Sample.point00 (PyStr "stop") 0
               Sample.tenth (PyStr "a2") (PyBool false) (PyStr "a2"))).
  - reflexivity.
  - left. reflexivity.
Defined.

(** ** Lane markings and ego road: the allow-list *)

Section AllowList.

Lemma lane_markings_loop_acc (classes : list string) (records acc : list pyval) :
  lane_markings_loop classes records acc
  = match lane_markings_loop classes records [] with
    | Return polygons => Return (acc ++ polygons)%list
    | Raise e => Raise e
    end.
Proof.
  revert acc. induction records as [|record rest IH]; intros acc.
  - simpl. rewrite app_nil_r. reflexivity.
  - rewrite !lane_markings_loop_cons.
    destruct (py_getitem record "properties") as [properties|e]; [|reflexivity].
    rewrite !bind_Return.
    destruct (py_contains "class" properties) as [[|]|e]; [| |reflexivity];
      rewrite !bind_Return; [|apply IH].
    destruct (py_getitem2 record "properties" "class") as [class|e]; [|reflexivity].
    rewrite !bind_Return. destruct (label_in class classes); [|apply IH].
    destruct (py_getitem2 record "geometry" "coordinates") as [c|e]; [|reflexivity].
    rewrite !bind_Return. rewrite (IH (acc ++ [c])%list), (IH ([] ++ [c])%list).
    destruct (lane_markings_loop classes rest []) as [polygons|e]; [|reflexivity].
    rewrite <- app_assoc. reflexivity.
Qed.

Lemma lane_markings_loop_app (classes : list string) (before after acc : list pyval) :
  lane_markings_loop classes (before ++ after) acc
  = (lane_markings_loop classes before acc ≫= lane_markings_loop classes after).
Proof.
  revert acc. induction before as [|record rest IH]; intros acc.
  - reflexivity.
  - rewrite <- app_comm_cons, !lane_markings_loop_cons.
    destruct (py_getitem record "properties") as [properties|e]; [|reflexivity].
    rewrite !bind_Return.
    destruct (py_contains "class" properties) as [[|]|e]; [| |reflexivity];
      rewrite !bind_Return; [|apply IH].
    destruct (py_getitem2 record "properties" "class") as [class|e]; [|reflexivity].
    rewrite !bind_Return. destruct (label_in class classes); [|apply IH].
    destruct (py_getitem2 record "geometry" "coordinates") as [c|e]; [|reflexivity].
    rewrite !bind_Return. apply IH.
Qed.

Lemma label_in_ext (classes classes' : list string) (class : pyval) :
  (∀ label, In label classes <-> In label classes') ->
  label_in class classes = label_in class classes'.
Proof.
  intros Hsame. destruct class as [| | | |label| |]; try reflexivity.
  apply eq_true_iff_eq. rewrite !label_in_spec. apply Hsame.
Qed.

Lemma lane_markings_loop_ext (classes classes' : list string) (records acc : list pyval) :
  (∀ label, In label classes <-> In label classes') ->
  lane_markings_loop classes records acc = lane_markings_loop classes' records acc.
Proof.
  intros Hsame. revert acc. induction records as [|record rest IH]; intros acc.
  - reflexivity.
  - rewrite !lane_markings_loop_cons.
    destruct (py_getitem record "properties") as [properties|e]; [|reflexivity].
    rewrite !bind_Return.
    destruct (py_contains "class" properties) as [[|]|e]; [| |reflexivity];
      rewrite !bind_Return; [|apply IH].
    destruct (py_getitem2 record "properties" "class") as [class|e]; [|reflexivity].
    rewrite !bind_Return, (label_in_ext classes classes' class Hsame).
    destruct (label_in class classes'); [|apply IH].
    destruct (py_getitem2 record "geometry" "coordinates") as [c|e]; [|reflexivity].
    rewrite !bind_Return. apply IH.
Qed.

Lemma lane_markings_loop_narrower (classes classes' : list string)
    (records out' : list pyval) :
  (∀ label, In label classes -> In label classes') ->
  lane_markings_loop classes' records [] = Return out' ->
  ∃ out, lane_markings_loop classes records [] = Return out ∧ sublist out out'.
Proof.
  intros Hnarrow. revert out'. induction records as [|record rest IH]; intros out' Hloop.
  - simpl in Hloop. inversion Hloop; subst. exists []. split; [reflexivity | constructor].
  - rewrite lane_markings_loop_cons in Hloop. rewrite lane_markings_loop_cons.
    bind_inv Hloop properties Hproperties. rewrite Hproperties, bind_Return.
    bind_inv Hloop has_class Hcontains. rewrite Hcontains, bind_Return.
    destruct has_class; [|apply IH, Hloop].
    bind_inv Hloop class Hclass. rewrite Hclass, bind_Return.
    destruct (label_in class classes') eqn:Hin'.
    + bind_inv Hloop c Hc. rewrite lane_markings_loop_acc in Hloop.
      destruct (lane_markings_loop classes' rest []) as [polygons'|e] eqn:Hrest; [|discriminate].
      inversion Hloop; subst out'; clear Hloop.
      destruct (IH _ eq_refl) as (polygons & Hpolygons & Hsub).
      destruct (label_in class classes).
      * rewrite Hc, bind_Return, lane_markings_loop_acc, Hpolygons.
        exists (c :: polygons). split; [reflexivity|]. simpl. apply sublist_skip, Hsub.
      * exists polygons. split; [exact Hpolygons|]. simpl. apply sublist_cons, Hsub.
    + destruct (label_in class classes) eqn:Hin; [|apply IH, Hloop].
      destruct (label_in_inv _ _ Hin) as (label & -> & Hlabel).
      apply Hnarrow, label_in_spec in Hlabel. congruence.
Qed.

(** When every record is well-formed for the allow-list, the records
    select some polygons. *)
Lemma selected_total (classes : list string) (records : list pyval) :
  Forall (lane_record_ok classes) records ->
  ∃ polygons, selected classes records polygons ∧ length polygons <= length records.
Proof.
  induction 1 as [|record rest (entries & Hproperties & Hgeometry) _ (polygons & IH & Hlength)].
  - exists []. split; [constructor | reflexivity].
  - destruct (dict_get entries "class") as [class|] eqn:Hclass.
    + destruct (label_in class classes) eqn:Hin.
      * specialize (Hgeometry class eq_refl Hin).
        destruct (py_getitem2 record "geometry" "coordinates") as [c|e] eqn:Hc; [|discriminate].
        destruct (label_in_inv _ _ Hin) as (label & -> & Hlabel).
        exists (c :: polygons). split; [|simpl; lia].
        eapply selected_member; eauto. exists entries. auto.
      * exists polygons. split; [|simpl; lia].
        eapply selected_other; [exists entries; eauto | | exact IH].
        intros label -> Hlabel. apply label_in_spec in Hlabel. congruence.
    + exists polygons. split; [|simpl; lia].
      eapply selected_no_class; [exists entries; eauto | exact IH].
Qed.

End AllowList.

(** X9.  When the file holds an array in which every record has a
    [properties] mapping and every record whose class label is in the
    allow-list has a [geometry.coordinates], the lane-marking and the
    ego-road parser both return, the same polygons, never more than there
    are records; records that do not match need no [geometry] at all. *)
Theorem well_formed_lane_file_parses (files : gmap string file_content) (path : string)
    (classes : list string) (records : list pyval) :
  _read_annotation_file files path = Return (PyList records) ->
  Forall (lane_record_ok classes) records ->
  ∃ polygons,
    parse_lane_markings_annotation files path classes = Return polygons
    ∧ parse_ego_road_annotation files path classes = Return polygons
    ∧ selected classes records polygons
    ∧ length polygons <= length records.
Proof.
  intros Hread Hok.
  destruct (selected_total _ _ Hok) as (polygons & Hselected & Hlength).
  exists polygons.
  pose proof (lane_markings_loop_selected _ _ _ Hselected []) as Hlane.
  pose proof (ego_road_loop_lane_markings_loop classes records []) as Hego.
  unfold parse_lane_markings_annotation, parse_ego_road_annotation.
  rewrite Hread, !bind_Return. simpl py_iter. rewrite !bind_Return.
  split; [exact Hlane|]. split; [exact (eq_trans Hego Hlane)|]. auto.
Qed.

Lemma well_formed_lane_file_parses_witness :
  ∃ polygons,
    parse_lane_markings_annotation Sample.files "lanes.json" ["lm_solid"] = Return polygons
    ∧ parse_ego_road_annotation Sample.files "lanes.json" ["lm_solid"] = Return polygons
    ∧ selected ["lm_solid"] Sample.lane_records polygons
    ∧ length polygons <= 3.
Proof.
  apply (well_formed_lane_file_parses Sample.files "lanes.json" ["lm_solid"] Sample.lane_records).
  - reflexivity.
  - repeat constructor; eexists; (split; [reflexivity|]); intros class [= <-]; discriminate.
Defined.

(** X10.  Narrowing the allow-list only removes polygons: if a parser
    returns with an allow-list, it returns with any allow-list whose
    labels are all in the first, and what it returns is a subsequence, in
    the same order, of what it returned before. *)
Theorem narrower_allow_list_gives_subsequence (files : gmap string file_content)
    (path : string) (classes classes' : list string) (out' : list pyval) :
  (∀ label, In label classes -> In label classes') ->
  parse_lane_markings_annotation files path classes' = Return out' ->
  ∃ out,
    parse_lane_markings_annotation files path classes = Return out
    ∧ parse_ego_road_annotation files path classes = Return out
    ∧ sublist out out'.
Proof.
  intros Hnarrow Hparse. unfold parse_lane_markings_annotation in Hparse.
  bind_inv Hparse annotations Hread. bind_inv Hparse records Hiter.
  destruct (lane_markings_loop_narrower _ _ _ _ Hnarrow Hparse) as (out & Hout & Hsub).
  exists out. unfold parse_lane_markings_annotation, parse_ego_road_annotation.
  rewrite Hread, !bind_Return, Hiter, !bind_Return.
  pose proof (ego_road_loop_lane_markings_loop classes records []) as Hego.
  split; [exact Hout|]. split; [exact (eq_trans Hego Hout) | exact Hsub].
Qed.

Lemma narrower_allow_list_gives_subsequence_witness :
  ∃ out,
    parse_lane_markings_annotation Sample.files "lanes.json" ["other"] = Return out
    ∧ parse_ego_road_annotation Sample.files "lanes.json" ["other"] = Return out
    ∧ sublist out [Sample.dashed_polygon; Sample.other_polygon].
Proof.
  apply (narrower_allow_list_gives_subsequence Sample.files "lanes.json"
           ["other"] ["lm_dashed"; "other"]).
  - intros label [<-|[]]. right. left. reflexivity.
  - reflexivity.
Defined.

(** X11.  The allow-list counts as a set: two allow-lists with the same
    labels, in whatever order and however often repeated, give the same
    outcome with either parser. *)
Theorem allow_list_is_a_set (files : gmap string file_content) (path : string)
    (classes classes' : list string) :
  (∀ label, In label classes <-> In label classes') ->
  parse_lane_markings_annotation files path classes
  = parse_lane_markings_annotation files path classes'
  ∧ parse_ego_road_annotation files path classes
    = parse_ego_road_annotation files path classes'.
Proof.
  intros Hsame.
  assert (parse_lane_markings_annotation files path classes
          = parse_lane_markings_annotation files path classes') as Hlane.
  { unfold parse_lane_markings_annotation.
    destruct (_read_annotation_file files path) as [annotations|e]; [|reflexivity].
    rewrite !bind_Return. destruct (py_iter annotations) as [records|e]; [|reflexivity].
    rewrite !bind_Return. apply lane_markings_loop_ext, Hsame. }
  split; [exact Hlane|].
  unfold parse_lane_markings_annotation in Hlane. unfold parse_ego_road_annotation.
  destruct (_read_annotation_file files path) as [annotations|e]; [|reflexivity].
  rewrite !bind_Return in *. destruct (py_iter annotations) as [records|e]; [|reflexivity].
  rewrite !bind_Return in *.
  exact (eq_trans (ego_road_loop_lane_markings_loop classes records [])
           (eq_trans Hlane (eq_sym (ego_road_loop_lane_markings_loop classes' records [])))).
Qed.

Lemma allow_list_is_a_set_witness :
  parse_lane_markings_annotation Sample.files "lanes.json" ["lm_dashed"; "lm_solid"]
  = parse_lane_markings_annotation Sample.files "lanes.json" ["lm_solid"; "lm_dashed"; "lm_solid"].
Proof.
  apply (allow_list_is_a_set Sample.files "lanes.json"
           ["lm_dashed"; "lm_solid"] ["lm_solid"; "lm_dashed"; "lm_solid"]).
  intros label. simpl. tauto.
Defined.

(** ** Lane markings and ego road: records that do not fit *)

Lemma lane_markings_loop_selected_app (classes : list string)
    (before polygons rest acc : list pyval) :
  selected classes before polygons ->
  lane_markings_loop classes (before ++ rest) acc
  = lane_markings_loop classes rest (acc ++ polygons).
Proof.
  intros Hselected.
  rewrite lane_markings_loop_app, (lane_markings_loop_selected _ _ _ Hselected acc).
  reflexivity.
Qed.

(** X12.  The lenience of the lane-marking and ego-road parsers stops at
    a missing [class]: when the records before it went through, a record
    without [properties], or one whose class label is in the allow-list
    and whose [geometry.coordinates] cannot be read, makes the call
    raise that exception, and the polygons gathered so far are not
    returned. *)
Theorem lane_bad_record_aborts (files : gmap string file_content) (path : string)
    (classes : list string) (before after polygons : list pyval) (record : pyval) (e : exn) :
  _read_annotation_file files path = Return (PyList (before ++ record :: after)) ->
  selected classes before polygons ->
  (py_getitem record "properties" = Raise e
   ∨ ∃ label, has_property record "class" (PyStr label)
              ∧ In label classes
              ∧ py_getitem2 record "geometry" "coordinates" = Raise e) ->
  parse_lane_markings_annotation files path classes = Raise e
  ∧ parse_ego_road_annotation files path classes = Raise e.
Proof.
  intros Hread Hbefore Hbad.
  assert (lane_markings_loop classes (before ++ record :: after) [] = Raise e) as Hlane.
  { rewrite (lane_markings_loop_selected_app _ _ _ _ _ Hbefore), lane_markings_loop_cons.
    destruct Hbad as [Hproperties|(label & Hclass & Hin & Hgeometry)].
    - rewrite Hproperties. reflexivity.
    - destruct (has_property_contains _ _ _ Hclass) as (properties & Hproperties & Hcontains & Hget).
      rewrite Hproperties, bind_Return, Hcontains, bind_Return, Hget, bind_Return.
      rewrite (proj2 (label_in_spec label classes) Hin), Hgeometry. reflexivity. }
  unfold parse_lane_markings_annotation, parse_ego_road_annotation.
  rewrite Hread, !bind_Return. simpl py_iter. rewrite !bind_Return.
  split; [exact Hlane|].
  exact (eq_trans (ego_road_loop_lane_markings_loop classes _ []) Hlane).
Qed.

Lemma lane_bad_record_aborts_witness :
  parse_lane_markings_annotation Edge.files "no_geometry.json" ["lm_dashed"; "lm_solid"]
  = Raise (KeyError "geometry")
  ∧ parse_ego_road_annotation Edge.files "no_geometry.json" ["lm_dashed"; "lm_solid"]
    = Raise (KeyError "geometry").
Proof.
  apply (lane_bad_record_aborts Edge.files "no_geometry.json" ["lm_dashed"; "lm_solid"]
           [Sample.lane "lm_dashed" Sample.dashed_polygon]
           [Sample.lane "lm_solid" Sample.other_polygon]
           [Sample.dashed_polygon] (Edge.no_geometry "lm_solid")).
  - reflexivity.
  - eapply selected_member with (label := "lm_dashed").
    + eexists. split; reflexivity.
    + left. reflexivity.
    + reflexivity.
    + apply selected_done.
  - right. exists "lm_solid". split; [eexists; split; reflexivity|].
    split; [right; left; reflexivity | reflexivity].
Defined.

(** X13.  A record whose [properties] is not a JSON object never gives a
    polygon, whatever the allow-list: [null], a boolean or a number makes
    the loop raise [TypeError]; a text or an array is searched for
    ["class"], and the record is passed over when that is absent, while
    the loop raises [TypeError] when it is present. *)
Theorem properties_that_is_no_mapping (classes : list string)
    (record properties : pyval) (rest acc : list pyval) :
  py_getitem record "properties" = Return properties ->
  (∀ entries, properties ≠ PyDict entries) ->
  (is_scalar properties = true ->
     lane_markings_loop classes (record :: rest) acc = Raise TypeError
     ∧ ego_road_loop classes (record :: rest) acc = Raise TypeError)
  ∧ (py_contains "class" properties = Return true ->
     lane_markings_loop classes (record :: rest) acc = Raise TypeError
     ∧ ego_road_loop classes (record :: rest) acc = Raise TypeError)
  ∧ (py_contains "class" properties = Return false ->
     lane_markings_loop classes (record :: rest) acc = lane_markings_loop classes rest acc
     ∧ ego_road_loop classes (record :: rest) acc = ego_road_loop classes rest acc).
Proof.
  intros Hproperties Hnot.
  rewrite lane_markings_loop_cons, ego_road_loop_cons.
  unfold py_getitem2. rewrite Hproperties, !bind_Return.
  destruct properties as [| | | |text|items|entries];
    try (repeat split; (reflexivity || discriminate)).
  - split; [discriminate|].
    split; intros ->; rewrite !bind_Return; split; reflexivity.
  - split; [discriminate|].
    split; intros ->; rewrite !bind_Return; split; reflexivity.
  - exfalso. exact (Hnot entries eq_refl).
Qed.

Lemma properties_that_is_no_mapping_witness :
  lane_markings_loop ["lm_dashed"] [Edge.text_properties "class: lm_dashed"] []
  = Raise TypeError
  ∧ ego_road_loop ["lm_dashed"] [Edge.text_properties "class: lm_dashed"] []
    = Raise TypeError.
Proof.
  apply (properties_that_is_no_mapping ["lm_dashed"]
           (Edge.text_properties "class: lm_dashed") (PyStr "class: lm_dashed") [] []).
  - reflexivity.
  - discriminate.
  - reflexivity.
Defined.

(** ** Arrays put end to end *)

Section Concatenation.

Context `{Collaborators}.

Lemma comprehension_app (before after : list pyval) :
  object_detection_comprehension (before ++ after)
  = (front ← object_detection_comprehension before;
     back ← object_detection_comprehension after;
     Return (front ++ back)%list).
Proof.
  induction before as [|record rest IH]; simpl.
  - destruct (object_detection_comprehension after); reflexivity.
  - destruct (from_dict record) as [o|e]; [|reflexivity].
    rewrite !bind_Return, IH.
    destruct (object_detection_comprehension rest) as [front|e]; [|reflexivity].
    rewrite !bind_Return.
    destruct (object_detection_comprehension after); reflexivity.
Qed.

Lemma traffic_sign_loop_acc (records : list pyval) (acc : list TrafficSignAnnotation) :
  traffic_sign_loop records acc
  = match traffic_sign_loop records [] with
    | Return signs => Return (acc ++ signs)%list
    | Raise e => Raise e
    end.
Proof.
  revert acc. induction records as [|record rest IH]; intros acc; simpl.
  - rewrite app_nil_r. reflexivity.
  - destruct (traffic_sign_body record) as [[sign|]|e]; [| |reflexivity];
      rewrite !bind_Return; [|apply IH].
    rewrite (IH (acc ++ [sign])%list), (IH [sign]).
    destruct (traffic_sign_loop rest []) as [signs|e]; [|reflexivity].
    rewrite <- app_assoc. reflexivity.
Qed.

Lemma traffic_sign_loop_app (before after : list pyval) (acc : list TrafficSignAnnotation) :
  traffic_sign_loop (before ++ after) acc
  = (traffic_sign_loop before acc ≫= traffic_sign_loop after).
Proof.
  revert acc. induction before as [|record rest IH]; intros acc; simpl.
  - reflexivity.
  - destruct (traffic_sign_body record) as [[sign|]|e]; [| |reflexivity];
      rewrite !bind_Return; apply IH.
Qed.

(** X14.  Each of the four parsers treats the records one by one and
    keeps their order: for a file whose array is the array of a first
    file followed by the array of a second, if the parser returns for
    both files it returns for the joined file, the output of the first
    followed by the output of the second. *)
Theorem parsers_distribute_over_concatenation
    (files : gmap string file_content) (first second joined : string)
    (before after : list pyval) :
  _read_annotation_file files first = Return (PyList before) ->
  _read_annotation_file files second = Return (PyList after) ->
  _read_annotation_file files joined = Return (PyList (before ++ after)) ->
  (∀ front back,
     parse_object_detection_annotation files first = Return front ->
     parse_object_detection_annotation files second = Return back ->
     parse_object_detection_annotation files joined = Return (front ++ back)%list)
  ∧ (∀ front back,
       parse_traffic_sign_annotation files first = Return front ->
       parse_traffic_sign_annotation files second = Return back ->
       parse_traffic_sign_annotation files joined = Return (front ++ back)%list)
  ∧ (∀ classes front back,
       parse_lane_markings_annotation files first classes = Return front ->
       parse_lane_markings_annotation files second classes = Return back ->
       parse_lane_markings_annotation files joined classes = Return (front ++ back)%list)
  ∧ (∀ classes front back,
       parse_ego_road_annotation files first classes = Return front ->
       parse_ego_road_annotation files second classes = Return back ->
       parse_ego_road_annotation files joined classes = Return (front ++ back)%list).
Proof.
  intros Hfirst Hsecond Hjoined.
  destruct (parsers_after_read _ _ _ Hfirst) as (-> & -> & Hlane1 & Hego1).
  destruct (parsers_after_read _ _ _ Hsecond) as (-> & -> & Hlane2 & Hego2).
  destruct (parsers_after_read _ _ _ Hjoined) as (-> & -> & Hlane & Hego).
  simpl py_iter. rewrite !bind_Return.
  assert (∀ classes front back,
            lane_markings_loop classes before [] = Return front ->
            lane_markings_loop classes after [] = Return back ->
            lane_markings_loop classes (before ++ after) [] = Return (front ++ back)%list)
    as Hloop.
  { intros classes front back Hfront Hback.
    rewrite lane_markings_loop_app, Hfront, bind_Return, lane_markings_loop_acc, Hback.
    reflexivity. }
  split; [|split; [|split]].
  - intros front back Hfront Hback. rewrite comprehension_app, Hfront, Hback. reflexivity.
  - intros front back Hfront Hback.
    rewrite traffic_sign_loop_app, Hfront, bind_Return, traffic_sign_loop_acc, Hback.
    reflexivity.
  - intros classes front back. rewrite Hlane1, Hlane2, Hlane. apply Hloop.
  - intros classes front back. rewrite Hego1, Hego2, Hego. simpl py_iter.
    rewrite !bind_Return. intros Hfront Hback.
    exact (eq_trans (ego_road_loop_lane_markings_loop classes _ [])
             (Hloop classes front back
                (eq_trans (eq_sym (ego_road_loop_lane_markings_loop classes _ [])) Hfront)
                (eq_trans (eq_sym (ego_road_loop_lane_markings_loop classes _ [])) Hback))).
Qed.

End Concatenation.

Lemma parsers_distribute_over_concatenation_witness :
  parse_lane_markings_annotation Edge.files "both.json" ["lm_dashed"; "lm_solid"]
  = Return ([Sample.other_polygon] ++ [Sample.dashed_polygon])%list.
Proof.
  apply (parsers_distribute_over_concatenation (H := Sample.collaborators)
           Edge.files "first.json" "second.json" "both.json"
           Edge.first_half Edge.second_half); reflexivity.
Defined.

(* ===================================================================== *)
(** * Properties of the module as it runs                                 *)
(* ===================================================================== *)

Section RunningBasics.

Context `{CollaboratorCalls}.

Lemma run_bind_unfold {A B} (c : run A) (k : A -> run B) (m : machine) :
  (c ≫= k) m
  = match c m with
    | Some (Return a, m') => k a m'
    | Some (Raise e, m') => Some (Raise e, m')
    | None => None
    end.
Proof. reflexivity. Qed.

Lemma run_lift_bind {A B} (r : result A) (k : A -> run B) (m : machine) :
  (lift r ≫= k) m
  = match r with
    | Return a => k a m
    | Raise e => Some (Raise e, m)
    end.
Proof. destruct r; reflexivity. Qed.

Lemma keeps_refl (m : machine) : keeps m m.
Proof. intros l _. reflexivity. Qed.

Lemma keeps_trans (m1 m2 m3 : machine) : keeps m1 m2 -> keeps m2 m3 -> keeps m1 m3.
Proof.
  intros H12 H23 l Hl. rewrite <- (H12 l Hl). apply H23. rewrite (H12 l Hl). exact Hl.
Qed.

(** A new list is at a location that held nothing, and leaves the rest
    as it was. *)
Lemma new_list_spec (obj : pylist) (m : machine) :
  ∃ l, new_list obj m = Some (Return l, mkMachine (<[l := obj]> (store m)) (outside m))
       ∧ store m !! l = None.
Proof.
  exists (fresh (dom (store m))). split; [reflexivity|].
  apply not_elem_of_dom, is_fresh.
Qed.

Lemma keeps_insert_new (m : machine) (l : loc) (obj : pylist) (w : Outside) :
  store m !! l = None -> keeps m (mkMachine (<[l := obj]> (store m)) w).
Proof.
  intros Hnew l' [obj' Hl']. simpl. apply lookup_insert_ne. congruence.
Qed.

(** A run that changed one location only, which held nothing at the
    start, kept everything. *)
Lemma keeps_but_new (m m1 m' : machine) (l : loc) :
  store m !! l = None ->
  keeps m m1 ->
  (∀ l', l' ≠ l -> store m' !! l' = store m1 !! l') ->
  keeps m m'.
Proof.
  intros Hnew Hkeeps Hframe l' Hl'. rewrite Hframe.
  - apply Hkeeps, Hl'.
  - intros ->. rewrite Hnew in Hl'. destruct Hl' as [? [=]].
Qed.

End RunningBasics.

(** ** Lane markings and ego road, on the store *)

Section RunningPolygons.

Context `{CollaboratorCalls}.

(** The loop on the store does what the loop on values does, to the
    list [polygons] is bound to and to nothing else. *)
Lemma run_lane_markings_loop_spec (classes : loc) (labels : list string)
    (records : list pyval) :
  ∀ (polygons : loc) (acc : list pyval) (m : machine),
    store m !! classes = Some (Labels labels) ->
    store m !! polygons = Some (Values acc) ->
    ∃ r m',
      run_lane_markings_loop classes records polygons m = Some (r, m')
      ∧ outside m' = outside m
      ∧ (∀ l, l ≠ polygons -> store m' !! l = store m !! l)
      ∧ match lane_markings_loop labels records acc with
        | Return out => r = Return tt ∧ store m' !! polygons = Some (Values out)
        | Raise e => r = Raise e ∧ ∃ partial, store m' !! polygons = Some (Values partial)
        end.
Proof.
  induction records as [|record rest IH]; intros polygons acc m Hclasses Hpolygons.
  - exists (Return tt), m. simpl. auto.
  - rewrite lane_markings_loop_cons. cbn [run_lane_markings_loop].
    rewrite run_lift_bind.
    destruct (py_getitem record "properties") as [properties|e];
      [rewrite bind_Return | exists (Raise e), m; rewrite bind_Raise; eauto 10].
    rewrite run_lift_bind.
    destruct (py_contains "class" properties) as [[|]|e];
      [rewrite bind_Return | rewrite bind_Return; apply IH; assumption
       | exists (Raise e), m; rewrite bind_Raise; eauto 10].
    rewrite run_lift_bind.
    destruct (py_getitem2 record "properties" "class") as [class|e];
      [rewrite bind_Return | exists (Raise e), m; rewrite bind_Raise; eauto 10].
    rewrite run_bind_unfold. unfold contains_label at 1. rewrite Hclasses.
    destruct (label_in class labels); [|apply IH; assumption].
    rewrite run_lift_bind.
    destruct (py_getitem2 record "geometry" "coordinates") as [c|e];
      [rewrite bind_Return | exists (Raise e), m; rewrite bind_Raise; eauto 10].
    rewrite run_bind_unfold. unfold append_value at 1. rewrite Hpolygons.
    assert (classes ≠ polygons) as Hdistinct by (intros ->; congruence).
    destruct (IH polygons (acc ++ [c])%list
                (mkMachine (<[polygons := Values (acc ++ [c])]> (store m)) (outside m)))
      as (r & m' & Hrun & Houtside & Hframe & Hout).
    + simpl. rewrite lookup_insert_ne by congruence. exact Hclasses.
    + simpl. apply lookup_insert_eq.
    + exists r, m'. split; [exact Hrun|]. split; [exact Houtside|]. split; [|exact Hout].
      intros l Hl. rewrite (Hframe l Hl). simpl. apply lookup_insert_ne. congruence.
Qed.

Lemma run_ego_road_loop_lane_markings_loop (classes : loc) (records : list pyval)
    (polygons : loc) (m : machine) :
  run_ego_road_loop classes records polygons m
  = run_lane_markings_loop classes records polygons m.
Proof.
  revert m. induction records as [|record rest IH]; intros m; [reflexivity|].
  cbn [run_ego_road_loop run_lane_markings_loop].
  rewrite !run_lift_bind.
  destruct (py_getitem record "properties") as [properties|e]; [|reflexivity].
  rewrite !run_lift_bind.
  destruct (py_contains "class" properties) as [[|]|e]; [|apply IH|reflexivity].
  rewrite !run_lift_bind.
  destruct (py_getitem2 record "properties" "class") as [class|e]; [|reflexivity].
  rewrite !run_bind_unfold.
  destruct (contains_label classes class m) as [[[[|]|e] m1]|];
    [|apply IH|reflexivity|reflexivity].
  rewrite !run_lift_bind.
  destruct (py_getitem2 record "geometry" "coordinates") as [c|e]; [|reflexivity].
  rewrite !run_bind_unfold.
  destruct (append_value polygons c m1) as [[[[]|e] m2]|]; [apply IH|reflexivity|reflexivity].
Qed.

(** A call of the lane-marking parser, with [classes] bound to a list of
    labels: it comes to an end; its outcome is that of the function on
    values for the labels the list holds at the time; the list it
    returns is new; and every object there was before the call, the one
    [classes] is bound to among them, is as it was. *)
Lemma run_parse_lane_markings_spec (files : gmap string file_content) (path : string)
    (classes : loc) (labels : list string) (m : machine) :
  store m !! classes = Some (Labels labels) ->
  ∃ r m',
    run_parse_lane_markings_annotation files path classes m = Some (r, m')
    ∧ outside m' = outside m
    ∧ keeps m m'
    ∧ yields Values (store m') r (parse_lane_markings_annotation files path labels)
    ∧ (∀ l, r = Return l -> store m !! l = None).
Proof.
  intros Hclasses.
  unfold run_parse_lane_markings_annotation, parse_lane_markings_annotation.
  rewrite run_lift_bind.
  destruct (_read_annotation_file files path) as [annotations|e].
  2: { exists (Raise e), m. rewrite bind_Raise. simpl.
       repeat split; auto using keeps_refl. discriminate. }
  rewrite bind_Return, run_bind_unfold.
  destruct (new_list_spec (Values []) m) as (polygons & -> & Hnew).
  set (m1 := mkMachine (<[polygons := Values []]> (store m)) (outside m)).
  assert (keeps m m1) as Hkeeps1 by (apply keeps_insert_new, Hnew).
  rewrite run_lift_bind.
  destruct (py_iter annotations) as [records|e].
  2: { exists (Raise e), m1. rewrite bind_Raise. simpl.
       repeat split; auto. discriminate. }
  rewrite bind_Return, run_bind_unfold.
  destruct (run_lane_markings_loop_spec classes labels records polygons [] m1)
    as (r & m' & -> & Houtside & Hframe & Hout).
  { rewrite (Hkeeps1 classes); eauto. }
  { apply lookup_insert_eq. }
  assert (keeps m m') as Hkeeps by (eapply keeps_but_new; eauto).
  destruct (lane_markings_loop labels records []) as [out|e].
  - destruct Hout as (-> & Hout). exists (Return polygons), m'.
    repeat split; auto. intros l [= <-]. exact Hnew.
  - destruct Hout as (-> & _). exists (Raise e), m'.
    repeat split; auto. discriminate.
Qed.

Lemma run_parse_ego_road_spec (files : gmap string file_content) (path : string)
    (classes : loc) (labels : list string) (m : machine) :
  store m !! classes = Some (Labels labels) ->
  ∃ r m',
    run_parse_ego_road_annotation files path classes m = Some (r, m')
    ∧ outside m' = outside m
    ∧ keeps m m'
    ∧ yields Values (store m') r (parse_ego_road_annotation files path labels)
    ∧ (∀ l, r = Return l -> store m !! l = None).
Proof.
  intros Hclasses.
  destruct (run_parse_lane_markings_spec files path classes labels m Hclasses)
    as (r & m' & Hrun & Hrest).
  exists r, m'. split.
  - rewrite <- Hrun.
    unfold run_parse_ego_road_annotation, run_parse_lane_markings_annotation.
    rewrite !run_lift_bind.
    destruct (_read_annotation_file files path) as [annotations|e]; [|reflexivity].
    rewrite !run_bind_unfold.
    destruct (new_list (Values []) m) as [[[polygons|e] m1]|]; [|reflexivity|reflexivity].
    rewrite !run_lift_bind.
    destruct (py_iter annotations) as [records|e]; [|reflexivity].
    rewrite !run_bind_unfold.
    rewrite (run_ego_road_loop_lane_markings_loop classes records polygons m1).
    reflexivity.
  - assert (parse_ego_road_annotation files path labels
            = parse_lane_markings_annotation files path labels) as ->; [|exact Hrest].
    unfold parse_lane_markings_annotation, parse_ego_road_annotation.
    destruct (_read_annotation_file files path) as [annotations|e]; [|reflexivity].
    rewrite !bind_Return. destruct (py_iter annotations) as [records|e]; [|reflexivity].
    rewrite !bind_Return. apply ego_road_loop_lane_markings_loop.
Qed.

End RunningPolygons.

(** ** Default allow-lists *)




(** X15.  Loading the module makes the two defaults two objects: the
    two [def] statements leave two new lists at two locations, holding
    the two literal allow-lists, and leave every earlier object as it
    was.  Whatever is afterwards put in place of the lane-marking
    default, an ego-road call with its default still has the outcome of
    the ego-road parser for [["EgoRoad_Road"]], and the other way
    round. *)
Theorem default_objects_are_separate `{CollaboratorCalls} (m : machine) :
  ∃ defined m0,
    define_parsers m = Some (Return defined, m0)
    ∧ lane_markings_default defined ≠ ego_road_default defined
    ∧ store m !! lane_markings_default defined = None
    ∧ store m !! ego_road_default defined = None
    ∧ keeps m m0
    ∧ store m0 !! lane_markings_default defined = Some (Labels ["lm_dashed"; "lm_solid"])
    ∧ store m0 !! ego_road_default defined = Some (Labels ["EgoRoad_Road"])
    ∧ ∀ files path contents w,
        (∃ r m',
           run_call_ego_road defined files path None
             (mkMachine (<[lane_markings_default defined := contents]> (store m0)) w)
           = Some (r, m')
           ∧ yields Values (store m') r
               (parse_ego_road_annotation files path ["EgoRoad_Road"]))
        ∧ (∃ r m',
             run_call_lane_markings defined files path None
               (mkMachine (<[ego_road_default defined := contents]> (store m0)) w)
             = Some (r, m')
             ∧ yields Values (store m') r
                 (parse_lane_markings_annotation files path ["lm_dashed"; "lm_solid"])).
Proof.
  unfold define_parsers. rewrite run_bind_unfold.
  destruct (new_list_spec (Labels ["lm_dashed"; "lm_solid"]) m) as (lane & -> & Hlane).
  set (m1 := mkMachine (<[lane := Labels ["lm_dashed"; "lm_solid"]]> (store m)) (outside m)).
  rewrite run_bind_unfold.
  destruct (new_list_spec (Labels ["EgoRoad_Road"]) m1) as (ego & -> & Hego).
  set (m0 := mkMachine (<[ego := Labels ["EgoRoad_Road"]]> (store m1)) (outside m1)).
  assert (lane ≠ ego) as Hdistinct.
  { intros <-. simpl in Hego. rewrite lookup_insert_eq in Hego. discriminate. }
  assert (store m0 !! lane = Some (Labels ["lm_dashed"; "lm_solid"])) as Hlane0.
  { simpl. rewrite lookup_insert_ne by congruence. apply lookup_insert_eq. }
  assert (store m0 !! ego = Some (Labels ["EgoRoad_Road"])) as Hego0.
  { simpl. apply lookup_insert_eq. }
  exists (mkParsers lane ego), m0. simpl lane_markings_default. simpl ego_road_default.
  split; [reflexivity|]. split; [exact Hdistinct|]. split; [exact Hlane|].
  split. { simpl in Hego. rewrite lookup_insert_ne in Hego by congruence. exact Hego. }
  split. { eapply keeps_trans; apply keeps_insert_new; assumption. }
  split; [exact Hlane0|]. split; [exact Hego0|].
  intros files path contents w. unfold run_call_ego_road, run_call_lane_markings.
  simpl bind_classes. split.
  - destruct (run_parse_ego_road_spec files path ego ["EgoRoad_Road"]
                (mkMachine (<[lane := contents]> (store m0)) w))
      as (r & m' & Hrun & _ & _ & Hyields & _).
    { simpl store. rewrite lookup_insert_ne by congruence. exact Hego0. }
    exists r, m'. auto.
  - destruct (run_parse_lane_markings_spec files path lane ["lm_dashed"; "lm_solid"]
                (mkMachine (<[ego := contents]> (store m0)) w))
      as (r & m' & Hrun & _ & _ & Hyields & _).
    { simpl store. rewrite lookup_insert_ne by congruence. exact Hlane0. }
    exists r, m'. auto.
Qed.

(** ** Traffic signs and object detection, on the store *)

Section RunningAnnotations.

Context `{CollaboratorCalls}.
Hypothesis Hfixed : answers_fixed.

Lemma run_call_bind {A B} (f : Outside -> result A * Outside) (k : A -> run B)
    (m : machine) :
  (call f ≫= k) m
  = match (f (outside m)).1 with
    | Return a => k a (mkMachine (store m) (f (outside m)).2)
    | Raise e => Some (Raise e, mkMachine (store m) (f (outside m)).2)
    end.
Proof.
  rewrite run_bind_unfold. unfold call. destruct (f (outside m)) as [[a|e] w]; reflexivity.
Qed.

(** One turn on the store does what the turn on values does, to the
    list [annotated_objects] is bound to and to nothing else in the
    store. *)
Lemma run_traffic_sign_body_spec (record : pyval) (annotated_objects : loc)
    (acc : list TrafficSignAnnotation) (m : machine) :
  store m !! annotated_objects = Some (Signs acc) ->
  ∃ r m',
    run_traffic_sign_body record annotated_objects m = Some (r, m')
    ∧ (∀ l, l ≠ annotated_objects -> store m' !! l = store m !! l)
    ∧ match traffic_sign_body record with
      | Return None => r = Return tt ∧ store m' !! annotated_objects = Some (Signs acc)
      | Return (Some sign) =>
          r = Return tt ∧ store m' !! annotated_objects = Some (Signs (acc ++ [sign]))
      | Raise e => r = Raise e ∧ store m' !! annotated_objects = Some (Signs acc)
      end.
Proof.
  intros Hlist. destruct Hfixed as (Hbox & Hidx & _).
  unfold run_traffic_sign_body, traffic_sign_body.
  rewrite run_lift_bind.
  destruct (py_getitem2 record "properties" "unclear") as [unclear|e];
    [rewrite bind_Return | exists (Raise e), m; rewrite bind_Raise; auto].
  destruct (truthy unclear); [exists (Return tt), m; auto|].
  rewrite run_lift_bind.
  destruct (py_getitem2 record "geometry" "coordinates") as [coordinates|e];
    [rewrite bind_Return | exists (Raise e), m; rewrite bind_Raise; auto].
  rewrite run_call_bind, Hbox.
  destruct (from_points coordinates FRONT) as [box|e];
    [rewrite bind_Return | eexists _, _; rewrite bind_Raise; split; [reflexivity|]; auto].
  rewrite run_lift_bind.
  destruct (py_getitem2 record "properties" "class") as [class|e];
    [rewrite !bind_Return | eexists _, _; rewrite bind_Raise; split; [reflexivity|]; auto].
  rewrite run_lift_bind, run_call_bind, Hidx.
  destruct (get_class_idx class) as [idx|e];
    [rewrite bind_Return | eexists _, _; rewrite bind_Raise; split; [reflexivity|]; auto].
  rewrite run_lift_bind.
  destruct (py_getitem2 record "properties" "occlusion_ratio") as [occlusion|e];
    [rewrite bind_Return | eexists _, _; rewrite bind_Raise; split; [reflexivity|]; auto].
  rewrite run_lift_bind.
  destruct (py_getitem2 record "properties" "annotation_uuid") as [ident|e];
    [rewrite !bind_Return | eexists _, _; rewrite bind_Raise; split; [reflexivity|]; auto].
  rewrite run_lift_bind.
  destruct (py_getitem2 record "properties" "is_electronic") as [electronic|e];
    [rewrite !bind_Return | eexists _, _; rewrite bind_Raise; split; [reflexivity|]; auto].
  rewrite run_lift_bind.
  unfold append_sign. simpl store. rewrite Hlist.
  eexists _, _. split; [reflexivity|]. simpl store. split.
  - intros l Hl. apply lookup_insert_ne. congruence.
  - split; [reflexivity | apply lookup_insert_eq].
Qed.

Lemma run_traffic_sign_loop_spec (records : list pyval) :
  ∀ (annotated_objects : loc) (acc : list TrafficSignAnnotation) (m : machine),
    store m !! annotated_objects = Some (Signs acc) ->
    ∃ r m',
      run_traffic_sign_loop records annotated_objects m = Some (r, m')
      ∧ (∀ l, l ≠ annotated_objects -> store m' !! l = store m !! l)
      ∧ match traffic_sign_loop records acc with
        | Return out => r = Return tt ∧ store m' !! annotated_objects = Some (Signs out)
        | Raise e => r = Raise e ∧ ∃ partial, store m' !! annotated_objects = Some (Signs partial)
        end.
Proof.
  induction records as [|record rest IH]; intros annotated_objects acc m Hlist.
  - exists (Return tt), m. simpl. auto.
  - cbn [run_traffic_sign_loop traffic_sign_loop]. rewrite run_bind_unfold.
    destruct (run_traffic_sign_body_spec record annotated_objects acc m Hlist)
      as (r1 & m1 & -> & Hframe1 & Hturn).
    destruct (traffic_sign_body record) as [[sign|]|e];
      [rewrite bind_Return | rewrite bind_Return | rewrite bind_Raise];
      destruct Hturn as (-> & Hlist1).
    + destruct (IH annotated_objects _ m1 Hlist1) as (r & m' & Hrun & Hframe & Hout).
      exists r, m'. split; [exact Hrun|]. split; [|exact Hout].
      intros l Hl. rewrite (Hframe l Hl). apply Hframe1, Hl.
    + destruct (IH annotated_objects _ m1 Hlist1) as (r & m' & Hrun & Hframe & Hout).
      exists r, m'. split; [exact Hrun|]. split; [|exact Hout].
      intros l Hl. rewrite (Hframe l Hl). apply Hframe1, Hl.
    + exists (Raise e), m1. eauto.
Qed.

(** A call of the traffic-sign parser comes to an end; its outcome is
    that of the function on values; the list it returns is new; and
    every list there was before the call is as it was. *)
Lemma run_parse_traffic_sign_spec (files : gmap string file_content) (path : string)
    (m : machine) :
  ∃ r m',
    run_parse_traffic_sign_annotation files path m = Some (r, m')
    ∧ keeps m m'
    ∧ yields Signs (store m') r (parse_traffic_sign_annotation files path)
    ∧ (∀ l, r = Return l -> store m !! l = None).
Proof.
  unfold run_parse_traffic_sign_annotation, parse_traffic_sign_annotation.
  rewrite run_lift_bind.
  destruct (_read_annotation_file files path) as [annotation|e].
  2: { exists (Raise e), m. rewrite bind_Raise. simpl.
       repeat split; auto using keeps_refl. discriminate. }
  rewrite bind_Return, run_bind_unfold.
  destruct (new_list_spec (Signs []) m) as (built & -> & Hnew).
  set (m1 := mkMachine (<[built := Signs []]> (store m)) (outside m)).
  assert (keeps m m1) as Hkeeps1 by (apply keeps_insert_new, Hnew).
  rewrite run_lift_bind.
  destruct (py_iter annotation) as [records|e].
  2: { exists (Raise e), m1. rewrite bind_Raise. simpl.
       repeat split; auto. discriminate. }
  rewrite bind_Return, run_bind_unfold.
  destruct (run_traffic_sign_loop_spec records built [] m1)
    as (r & m' & -> & Hframe & Hout).
  { apply lookup_insert_eq. }
  assert (keeps m m') as Hkeeps by (eapply keeps_but_new; eauto).
  destruct (traffic_sign_loop records []) as [out|e].
  - destruct Hout as (-> & Hout). exists (Return built), m'.
    repeat split; auto. intros l [= <-]. exact Hnew.
  - destruct Hout as (-> & _). exists (Raise e), m'.
    repeat split; auto. discriminate.
Qed.

Lemma run_object_detection_comprehension_spec (records : list pyval) :
  ∀ (built : loc) (acc : list ObjectAnnotation) (m : machine),
    store m !! built = Some (Objects acc) ->
    ∃ r m',
      run_object_detection_comprehension records built m = Some (r, m')
      ∧ (∀ l, l ≠ built -> store m' !! l = store m !! l)
      ∧ match object_detection_comprehension records with
        | Return out => r = Return tt ∧ store m' !! built = Some (Objects (acc ++ out))
        | Raise e => r = Raise e ∧ ∃ partial, store m' !! built = Some (Objects partial)
        end.
Proof.
  destruct Hfixed as (_ & _ & Hdict).
  induction records as [|record rest IH]; intros built acc m Hlist.
  - exists (Return tt), m. simpl. rewrite app_nil_r. auto.
  - cbn [run_object_detection_comprehension object_detection_comprehension].
    rewrite run_call_bind, Hdict.
    destruct (from_dict record) as [o|e];
      [rewrite bind_Return | eexists _, _; rewrite bind_Raise; split; [reflexivity|]; eauto].
    rewrite run_bind_unfold. unfold append_object at 1. simpl store. rewrite Hlist.
    destruct (IH built (acc ++ [o])%list
                (mkMachine (<[built := Objects (acc ++ [o])]> (store m))
                   (call_from_dict record (outside m)).2))
      as (r & m' & Hrun & Hframe & Hout).
    { apply lookup_insert_eq. }
    exists r, m'. split; [exact Hrun|]. split.
    + intros l Hl. rewrite (Hframe l Hl). simpl. apply lookup_insert_ne. congruence.
    + destruct (object_detection_comprehension rest) as [out|e];
        [rewrite bind_Return | rewrite bind_Raise; exact Hout].
      rewrite <- app_assoc in Hout. exact Hout.
Qed.

Lemma run_parse_object_detection_spec (files : gmap string file_content) (path : string)
    (m : machine) :
  ∃ r m',
    run_parse_object_detection_annotation files path m = Some (r, m')
    ∧ keeps m m'
    ∧ yields Objects (store m') r (parse_object_detection_annotation files path)
    ∧ (∀ l, r = Return l -> store m !! l = None).
Proof.
  unfold run_parse_object_detection_annotation, parse_object_detection_annotation.
  rewrite run_lift_bind.
  destruct (_read_annotation_file files path) as [annotation|e].
  2: { exists (Raise e), m. rewrite bind_Raise. simpl.
       repeat split; auto using keeps_refl. discriminate. }
  rewrite bind_Return, run_lift_bind.
  destruct (py_iter annotation) as [records|e].
  2: { exists (Raise e), m. rewrite bind_Raise. simpl.
       repeat split; auto using keeps_refl. discriminate. }
  rewrite bind_Return, run_bind_unfold.
  destruct (new_list_spec (Objects []) m) as (built & -> & Hnew).
  set (m1 := mkMachine (<[built := Objects []]> (store m)) (outside m)).
  assert (keeps m m1) as Hkeeps1 by (apply keeps_insert_new, Hnew).
  rewrite run_bind_unfold.
  destruct (run_object_detection_comprehension_spec records built [] m1)
    as (r & m' & -> & Hframe & Hout).
  { apply lookup_insert_eq. }
  assert (keeps m m') as Hkeeps by (eapply keeps_but_new; eauto).
  destruct (object_detection_comprehension records) as [out|e].
  - destruct Hout as (-> & Hout). exists (Return built), m'.
    repeat split; auto. intros l [= <-]. exact Hnew.
  - destruct Hout as (-> & _). exists (Raise e), m'.
    repeat split; auto. discriminate.
Qed.

End RunningAnnotations.

(** ** Calling a parser again *)

Section RunningAgain.

Context `{CollaboratorCalls}.

(** Two runs in a row with the same outcome on values have structurally
    identical outcomes, when the second keeps what the first left and
    returns a new list. *)
Lemma same_outcome_of_yields {A} (wrap : list A -> pylist) (m1 m2 : machine)
    (r1 r2 : result loc) (expected : result (list A)) :
  yields wrap (store m1) r1 expected ->
  yields wrap (store m2) r2 expected ->
  keeps m1 m2 ->
  (∀ l, r2 = Return l -> store m1 !! l = None) ->
  same_outcome (store m2) r1 r2.
Proof.
  intros H1 H2 Hkeeps Hnew. unfold yields in *. unfold same_outcome.
  destruct expected as [items|e], r1 as [l1|e1], r2 as [l2|e2]; try contradiction.
  - assert (store m2 !! l1 = Some (wrap items)) as Hl1 by (rewrite (Hkeeps l1); eauto).
    split; [|split; [eauto | congruence]].
    intros ->. rewrite (Hnew l2 eq_refl) in H1. discriminate.
  - congruence.
Qed.

(** C7.  Call any of the four parsers twice in a row on the same path,
    the second call starting in the state the first one leaves, with the
    file at the path unchanged in between (other files may have
    changed), and with collaborators whose answers do not depend on what
    earlier calls did to their state: both calls come to an end, and
    their outcomes are structurally identical, the same exception, or
    two list objects, not one, that hold the same items in the same
    order once both calls are over.  For the two parsers with an
    allow-list this holds for a call with any list of labels, the
    default or a supplied one. *)
Theorem parsing_again_gives_the_same
    (files files' : gmap string file_content) (path : string) (m : machine) :
  answers_fixed ->
  files !! path = files' !! path ->
  (∃ r1 m1 r2 m2,
     run_parse_object_detection_annotation files path m = Some (r1, m1)
     ∧ run_parse_object_detection_annotation files' path m1 = Some (r2, m2)
     ∧ same_outcome (store m2) r1 r2)
  ∧ (∃ r1 m1 r2 m2,
       run_parse_traffic_sign_annotation files path m = Some (r1, m1)
       ∧ run_parse_traffic_sign_annotation files' path m1 = Some (r2, m2)
       ∧ same_outcome (store m2) r1 r2)
  ∧ (∀ classes labels,
       store m !! classes = Some (Labels labels) ->
       (∃ r1 m1 r2 m2,
          run_parse_lane_markings_annotation files path classes m = Some (r1, m1)
          ∧ run_parse_lane_markings_annotation files' path classes m1 = Some (r2, m2)
          ∧ same_outcome (store m2) r1 r2)
       ∧ (∃ r1 m1 r2 m2,
            run_parse_ego_road_annotation files path classes m = Some (r1, m1)
            ∧ run_parse_ego_road_annotation files' path classes m1 = Some (r2, m2)
            ∧ same_outcome (store m2) r1 r2)).
Proof.
  intros Hfixed Hsame.
  pose proof (read_annotation_file_local _ _ _ Hsame) as Hread.
  split; [|split; [|intros classes labels Hclasses; split]].
  - destruct (run_parse_object_detection_spec Hfixed files path m)
      as (r1 & m1 & Hrun1 & _ & Hyields1 & _).
    destruct (run_parse_object_detection_spec Hfixed files' path m1)
      as (r2 & m2 & Hrun2 & Hkeeps & Hyields2 & Hnew).
    exists r1, m1, r2, m2. split; [exact Hrun1|]. split; [exact Hrun2|].
    eapply same_outcome_of_yields; eauto.
    unfold parse_object_detection_annotation in *. rewrite Hread. exact Hyields2.
  - destruct (run_parse_traffic_sign_spec Hfixed files path m)
      as (r1 & m1 & Hrun1 & _ & Hyields1 & _).
    destruct (run_parse_traffic_sign_spec Hfixed files' path m1)
      as (r2 & m2 & Hrun2 & Hkeeps & Hyields2 & Hnew).
    exists r1, m1, r2, m2. split; [exact Hrun1|]. split; [exact Hrun2|].
    eapply same_outcome_of_yields; eauto.
    unfold parse_traffic_sign_annotation in *. rewrite Hread. exact Hyields2.
  - destruct (run_parse_lane_markings_spec files path classes labels m Hclasses)
      as (r1 & m1 & Hrun1 & _ & Hkeeps1 & Hyields1 & _).
    destruct (run_parse_lane_markings_spec files' path classes labels m1)
      as (r2 & m2 & Hrun2 & _ & Hkeeps & Hyields2 & Hnew).
    { rewrite (Hkeeps1 classes); eauto. }
    exists r1, m1, r2, m2. split; [exact Hrun1|]. split; [exact Hrun2|].
    eapply same_outcome_of_yields; eauto.
    unfold parse_lane_markings_annotation in *. rewrite Hread. exact Hyields2.
  - destruct (run_parse_ego_road_spec files path classes labels m Hclasses)
      as (r1 & m1 & Hrun1 & _ & Hkeeps1 & Hyields1 & _).
    destruct (run_parse_ego_road_spec files' path classes labels m1)
      as (r2 & m2 & Hrun2 & _ & Hkeeps & Hyields2 & Hnew).
    { rewrite (Hkeeps1 classes); eauto. }
    exists r1, m1, r2, m2. split; [exact Hrun1|]. split; [exact Hrun2|].
    eapply same_outcome_of_yields; eauto.
    unfold parse_ego_road_annotation in *. rewrite Hread. exact Hyields2.
Qed.

End RunningAgain.

Lemma parsing_again_gives_the_same_witness :
  ∃ r1 m1 r2 m2,
    run_parse_traffic_sign_annotation (H0 := Live.calls) Sample.files "signs.json" Live.start
    = Some (r1, m1)
    ∧ run_parse_traffic_sign_annotation Sample.files_later "signs.json" m1 = Some (r2, m2)
    ∧ same_outcome (store m2) r1 r2.
Proof.
  apply (parsing_again_gives_the_same (H0 := Live.calls)
           Sample.files Sample.files_later "signs.json" Live.start).
  - repeat split; intros; reflexivity.
  - reflexivity.
Defined.

(** The two calls of the witness, run: the collaborators have been
    called twice by the first call and twice more by the second, and the
    two lists, at two locations, hold the same annotation. *)
Example parsing_signs_twice :
  ∃ m1 m2,
    run_parse_traffic_sign_annotation (H0 := Live.calls) Sample.files "signs.json" Live.start
    = Some (Return 1%positive, m1)
    ∧ run_parse_traffic_sign_annotation Sample.files_later "signs.json" m1
      = Some (Return 2%positive, m2)
    ∧ outside m1 = 2 ∧ outside m2 = 4
    ∧ store m2 !! 1%positive = store m2 !! 2%positive
    ∧ store m2 !! 2%positive
      = Some (Signs [ mkTrafficSignAnnotation (H := Sample.collaborators) Sample.point00
                        (PyStr "stop") 0 Sample.tenth (PyStr "a2") (PyBool false)
                        (PyStr "a2") ]).
Proof.
  eexists _, _. split; [vm_compute; reflexivity|]. split; [vm_compute; reflexivity|].
  repeat split; reflexivity.
Qed.
